(** * blog-with-users: a shallow embedding of [api/main.py]

    The application is a Flask program: ten routes over three SQLAlchemy
    tables, Flask-Login sessions and WTForms forms.  The embedding follows
    the source function by function.

    - The three tables are lists of rows in the order a scan of the table
      returns them to [query.all()] and [.first()], each with the sequence
      that hands out its next primary key.  An insert appends its row; an
      UPDATE writes a new version of the row, which a scan then meets
      last.  A value longer than its [String(250)] column is refused by
      the store: the commit raises and nothing is written.
    - The Flask session of the browser (a signed cookie) holds the id that
      Flask-Login stores and the pending flash messages.
    - A view function is a state transformer over store and session that
      returns the response: a rendered template with its context, a
      redirect, an [abort] with its HTTP status, or an unhandled exception.
    - What the program imports and does not define is an interface,
      [Externals]: werkzeug's two password functions and the validators of
      the [forms] module.  The salt werkzeug draws and the date of the day
      are inputs of the request. *)

From Stdlib Require Import ZArith List String Ascii Bool Lia Permutation.
Import ListNotations.

#[local] Open Scope string_scope.
#[local] Open Scope Z_scope.

(** ** Tables *)

Module User.
(** [name], [email] and [password] are [String(250)] columns; the bound
    is checked where a row is written ([add_User]). *)
Record t : Type := mk
  { id : Z;
    name : string;
    email : string;
    password : string }.
End User.

Module BlogPost.
(** [author_id] is a nullable foreign key to [users.id]: the column is
    declared without [nullable=False].  [title], [subtitle], [date] and
    [img_url] are [String(250)] columns, [body] is [Text]; the bound is
    checked where a row is written ([add_BlogPost], [update_BlogPost]). *)
Record t : Type := mk
  { id : Z;
    title : string;
    subtitle : string;
    date : string;
    body : string;
    img_url : string;
    author_id : option Z }.
End BlogPost.

Module Comment.
(** Both foreign keys are nullable, as in the source; [text] is a [Text]
    column, without a bound. *)
Record t : Type := mk
  { id : Z;
    text : string;
    post_id : option Z;
    author_id : option Z }.
End Comment.

(** The relational store: rows in insertion order and the three sequences
    of the surrogate keys. *)
Record Store : Type := mkStore
  { users : list User.t;
    blog_posts : list BlogPost.t;
    comments : list Comment.t;
    users_seq : Z;
    blog_posts_seq : Z;
    comments_seq : Z }.

(** [db.create_all()] on a fresh database. *)
Definition empty_store : Store :=
  {| users := []; blog_posts := []; comments := [];
     users_seq := 1; blog_posts_seq := 1; comments_seq := 1 |}.

(** ** Session and global state *)

(** The session cookie: the key Flask-Login writes and the list that
    [flash] appends (category, message) pairs to. *)
Record Session : Type := mkSession
  { session_user_id : option Z;
    session_flashes : list (string * string) }.

Definition empty_session : Session :=
  {| session_user_id := None; session_flashes := [] |}.

Record St : Type := mkSt
  { db : Store;
    session : Session }.

Definition init : St := {| db := empty_store; session := empty_session |}.

(** ** Forms (field names as [main.py] reads them) *)

Module RegisterForm.
Record t : Type := mk { name : string; email : string; password : string }.
Definition blank : t := mk "" "" "".
End RegisterForm.

Module LoginForm.
Record t : Type := mk { email : string; password : string }.
Definition blank : t := mk "" "".
End LoginForm.

Module CreatePostForm.
Record t : Type := mk
  { title : string; subtitle : string; img_url : string; body : string }.
Definition blank : t := mk "" "" "" "".
End CreatePostForm.

Module CommentForm.
Record t : Type := mk { comment_text : string }.
Definition blank : t := mk "".
End CommentForm.

(** ** Requests and responses *)

Inductive Method : Type := GET | POST.

Definition is_POST (m : Method) : bool :=
  match m with POST => true | GET => false end.

(** What a request brings besides its route: the HTTP method, the salt
    [generate_password_hash] would draw while serving it, and the date
    [date.today().strftime("%B %d, %Y")] would return. *)
Record Request : Type := mkRequest
  { method : Method;
    salt : string;
    today : string }.

(** Values handed to templates and to [url_for]. *)
Inductive Value : Type :=
| VStr (s : string)
| VInt (n : Z)
| VPost (p : option BlogPost.t)
| VPosts (ps : list BlogPost.t)
| VComments (cs : list Comment.t)
| VRegisterForm (f : RegisterForm.t)
| VLoginForm (f : LoginForm.t)
| VCreatePostForm (f : CreatePostForm.t)
| VCommentForm (f : CommentForm.t).

Record Url : Type := url_for
  { endpoint : string;
    values : list (string * Value) }.

Inductive Response : Type :=
| render_template (template : string) (context : list (string * Value))
| redirect (location : Url)
| abort (code : Z)
| unhandled (exception : string).

(** Keyword lookup in a template context. *)
Fixpoint lookup (k : string) (ctx : list (string * Value)) : option Value :=
  match ctx with
  | [] => None
  | (k', v) :: rest => if String.eqb k k' then Some v else lookup k rest
  end.

(** ** The state monad of the view functions *)

Definition M (A : Type) : Type := St -> A * St.

Definition ret {A : Type} (a : A) : M A := fun st => (a, st).

Definition bind {A B : Type} (m : M A) (k : A -> M B) : M B :=
  fun st => let (a, st') := m st in k a st'.

Definition gets {A : Type} (f : St -> A) : M A := fun st => (f st, st).

Declare Scope view_scope.
Delimit Scope view_scope with view.
Notation "x <- m ;; k" := (bind m (fun x => k))
  (at level 61, m at next level, right associativity) : view_scope.
Notation "m ;; k" := (bind m (fun _ => k))
  (at level 61, right associativity) : view_scope.
#[local] Open Scope view_scope.

(** A view function takes the arguments of its route and the request. *)
Definition View (A : Type) : Type := A -> Request -> M Response.

(** ** Queries *)

(** [User.query.filter_by(id = user_id).first()] *)
Definition User_query_filter_by_id (user_id : Z) (s : Store) : option User.t :=
  find (fun u => User.id u =? user_id) (users s).

(** [User.query.filter_by(email = e).first()] *)
Definition User_query_filter_by_email (e : string) (s : Store) : option User.t :=
  find (fun u => String.eqb (User.email u) e) (users s).

(** [BlogPost.query.filter_by(id = post_id).first()] *)
Definition BlogPost_query_filter_by_id (post_id : Z) (s : Store) : option BlogPost.t :=
  find (fun p => BlogPost.id p =? post_id) (blog_posts s).

(** [BlogPost.query.get(post_id)] *)
Definition BlogPost_query_get (post_id : Z) (s : Store) : option BlogPost.t :=
  find (fun p => BlogPost.id p =? post_id) (blog_posts s).

(** [BlogPost.query.all()] and [Comment.query.all()] *)
Definition BlogPost_query_all (s : Store) : list BlogPost.t := blog_posts s.
Definition Comment_query_all (s : Store) : list Comment.t := comments s.

(** ** Mutations ([db.session.add] / attribute assignment / [delete],
       each followed by [db.session.commit()]) *)

Definition with_db (f : Store -> Store) : M unit :=
  fun st => (tt, {| db := f (db st); session := session st |}).

(** The rows the three inserts write; each takes the next key of its
    sequence. *)
Definition new_User (n e pw : string) (s : Store) : User.t :=
  User.mk (users_seq s) n e pw.

Definition new_BlogPost (ttl sub bd img : string) (author : User.t) (dt : string)
           (s : Store) : BlogPost.t :=
  BlogPost.mk (blog_posts_seq s) ttl sub dt bd img (Some (User.id author)).

(** [parent_post] may be [None]: the relationship is then left unset and
    the row is written with a null [post_id]. *)
Definition new_Comment (txt : string) (comment_author : User.t)
           (parent_post : option BlogPost.t) (s : Store) : Comment.t :=
  Comment.mk (comments_seq s) txt
             (option_map BlogPost.id parent_post)
             (Some (User.id comment_author)).

Definition insert_User (row : User.t) (s : Store) : Store :=
  {| users := users s ++ [row];
     blog_posts := blog_posts s;
     comments := comments s;
     users_seq := users_seq s + 1;
     blog_posts_seq := blog_posts_seq s;
     comments_seq := comments_seq s |}.

Definition insert_BlogPost (row : BlogPost.t) (s : Store) : Store :=
  {| users := users s;
     blog_posts := blog_posts s ++ [row];
     comments := comments s;
     users_seq := users_seq s;
     blog_posts_seq := blog_posts_seq s + 1;
     comments_seq := comments_seq s |}.

Definition insert_Comment (row : Comment.t) (s : Store) : Store :=
  {| users := users s;
     blog_posts := blog_posts s;
     comments := comments s ++ [row];
     users_seq := users_seq s;
     blog_posts_seq := blog_posts_seq s;
     comments_seq := comments_seq s + 1 |}.

(** A value fits a [String(250)] column when it has at most 250
    characters. *)
Definition String_250 (v : string) : bool :=
  Nat.leb (String.length v) 250.

Definition columns_fit (vs : list string) : bool := forallb String_250 vs.

Arguments columns_fit : simpl never.

(** [db.session.add(obj); db.session.commit()]: the object comes back
    with its key.  When a value does not fit its column the commit raises
    [DataError]: the result is [None] and nothing is written. *)
Definition add_User (n e pw : string) : M (option User.t) :=
  fun st =>
    if columns_fit [n; e; pw] then
      let row := new_User n e pw (db st) in
      (Some row, {| db := insert_User row (db st); session := session st |})
    else (None, st).

Definition add_BlogPost (ttl sub bd img : string) (author : User.t) (dt : string)
  : M (option BlogPost.t) :=
  fun st =>
    if columns_fit [ttl; sub; dt; img] then
      let row := new_BlogPost ttl sub bd img author dt (db st) in
      (Some row, {| db := insert_BlogPost row (db st); session := session st |})
    else (None, st).

(** The columns of a comment have no bound. *)
Definition add_Comment (txt : string) (comment_author : User.t)
           (parent_post : option BlogPost.t) : M Comment.t :=
  fun st =>
    let row := new_Comment txt comment_author parent_post (db st) in
    (row, {| db := insert_Comment row (db st); session := session st |}).

(** The five assignments of [edit_post] on the row of [post]. *)
Definition assign_post (ttl sub img : string) (author : User.t) (bd : string)
           (p : BlogPost.t) : BlogPost.t :=
  {| BlogPost.id := BlogPost.id p;
     BlogPost.title := ttl;
     BlogPost.subtitle := sub;
     BlogPost.date := BlogPost.date p;
     BlogPost.body := bd;
     BlogPost.img_url := img;
     BlogPost.author_id := Some (User.id author) |}.

Definition option_Z_eqb (a b : option Z) : bool :=
  match a, b with
  | Some x, Some y => x =? y
  | None, None => true
  | _, _ => false
  end.

(** Two post objects with the same value in every column. *)
Definition BlogPost_eqb (p q : BlogPost.t) : bool :=
  (BlogPost.id p =? BlogPost.id q)
  && String.eqb (BlogPost.title p) (BlogPost.title q)
  && String.eqb (BlogPost.subtitle p) (BlogPost.subtitle q)
  && String.eqb (BlogPost.date p) (BlogPost.date q)
  && String.eqb (BlogPost.body p) (BlogPost.body q)
  && String.eqb (BlogPost.img_url p) (BlogPost.img_url q)
  && option_Z_eqb (BlogPost.author_id p) (BlogPost.author_id q).

Arguments BlogPost_eqb : simpl never.

Definition has_key (post : BlogPost.t) (p : BlogPost.t) : bool :=
  BlogPost.id p =? BlogPost.id post.

(** The UPDATE a commit issues for an object whose attributes were
    assigned: the row with the key of [post] is rewritten, and its new
    version is the last a scan of the table meets. *)
Definition rewrite_BlogPost (post : BlogPost.t) (f : BlogPost.t -> BlogPost.t)
           (s : Store) : Store :=
  {| users := users s;
     blog_posts := filter (fun p => negb (has_key post p)) (blog_posts s)
                   ++ map f (filter (has_key post) (blog_posts s));
     comments := comments s;
     users_seq := users_seq s;
     blog_posts_seq := blog_posts_seq s;
     comments_seq := comments_seq s |}.

(** Attribute assignments on [post] followed by [db.session.commit()].
    When the assignments leave every column as it was, the unit of work
    issues no UPDATE; otherwise the assigned [String(250)] values must fit
    ([bounded] lists them), or the commit raises and nothing is written.
    The result tells whether the commit went through. *)
Definition update_BlogPost (post : BlogPost.t) (f : BlogPost.t -> BlogPost.t)
           (bounded : list string) : M bool :=
  fun st =>
    if BlogPost_eqb (f post) post then (true, st)
    else if columns_fit bounded then
      (true, {| db := rewrite_BlogPost post f (db st); session := session st |})
    else (false, st).

(** A comment whose parent is [post]. *)
Definition attached_to (post : BlogPost.t) (c : Comment.t) : bool :=
  match Comment.post_id c with
  | Some pid => pid =? BlogPost.id post
  | None => false
  end.

(** What the unit of work does with a child of a deleted parent when the
    relationship has no delete cascade: the foreign key is set to null. *)
Definition detach_comment (post : BlogPost.t) (c : Comment.t) : Comment.t :=
  match Comment.post_id c with
  | Some pid =>
      if pid =? BlogPost.id post
      then {| Comment.id := Comment.id c;
              Comment.text := Comment.text c;
              Comment.post_id := None;
              Comment.author_id := Comment.author_id c |}
      else c
  | None => c
  end.

(** [db.session.delete(post)]: the row goes; the comments of the post are
    detached from it by an UPDATE each, so their new versions are the last
    a scan of the comments table meets. *)
Definition remove_BlogPost (post : BlogPost.t) (s : Store) : Store :=
  {| users := users s;
     blog_posts := filter (fun p => negb (BlogPost.id p =? BlogPost.id post))
                          (blog_posts s);
     comments := filter (fun c => negb (attached_to post c)) (comments s)
                 ++ map (detach_comment post) (filter (attached_to post) (comments s));
     users_seq := users_seq s;
     blog_posts_seq := blog_posts_seq s;
     comments_seq := comments_seq s |}.

Definition delete_BlogPost (post : BlogPost.t) : M unit :=
  with_db (remove_BlogPost post).

(** ** Flask and Flask-Login primitives *)

(** [flash(message, category)]; the default category is ["message"]. *)
Definition flash_category (category message : string) : M unit :=
  fun st =>
    (tt, {| db := db st;
            session := {| session_user_id := session_user_id (session st);
                          session_flashes :=
                            session_flashes (session st) ++ [(category, message)] |} |}).

Definition flash (message : string) : M unit := flash_category "message" message.

(** The [user_loader] callback. *)
Definition load_user (user_id : Z) (s : Store) : option User.t :=
  User_query_filter_by_id user_id s.

(** [current_user]: the user the loader finds for the id of the session;
    [None] stands for Flask-Login's anonymous user (no id in the session,
    or an id the loader does not find). *)
Definition current_user (st : St) : option User.t :=
  match session_user_id (session st) with
  | Some uid => load_user uid (db st)
  | None => None
  end.

Definition is_authenticated (u : option User.t) : bool :=
  match u with Some _ => true | None => false end.

Definition login_user (u : User.t) : M unit :=
  fun st =>
    (tt, {| db := db st;
            session := {| session_user_id := Some (User.id u);
                          session_flashes := session_flashes (session st) |} |}).

Definition logout_user : M unit :=
  fun st =>
    (tt, {| db := db st;
            session := {| session_user_id := None;
                          session_flashes := session_flashes (session st) |} |}).

(** The configuration of a [LoginManager] that [unauthorized] reads. *)
Record LoginManager : Type := mkLoginManager
  { login_view : option string;
    login_message : string;
    login_message_category : string }.

(** [login_manager = LoginManager(app)]: the program sets no [login_view]
    and registers no unauthorized handler, so the fields keep the defaults
    of the library. *)
Definition login_manager : LoginManager :=
  {| login_view := None;
     login_message := "Please log in to access this page.";
     login_message_category := "message" |}.

(** [LoginManager.unauthorized]: without a login view the request is
    aborted with 401; with one, the login message is flashed and the
    browser is sent to the view. *)
Definition unauthorized (lm : LoginManager) : M Response :=
  match login_view lm with
  | None => ret (abort 401)
  | Some view =>
      flash_category (login_message_category lm) (login_message lm) ;;
      ret (redirect (url_for view []))
  end.

(** [@login_required] *)
Definition login_required {A : Type} (func : View A) : View A :=
  fun args req =>
    cu <- gets current_user ;;
    if negb (is_authenticated cu)
    then unauthorized login_manager
    else func args req.

(** [@admin_only].  The anonymous user of Flask-Login has no attribute
    [id], so the comparison raises when nobody is logged in. *)
Definition admin_only {A : Type} (func : View A) : View A :=
  fun args req =>
    cu <- gets current_user ;;
    match cu with
    | None => ret (unhandled "AttributeError")
    | Some u =>
        if negb (User.id u =? 1)
        then ret (abort 403)
        else func args req
    end.

(** ** What the program imports *)

(** werkzeug's password functions, the validators of the four forms of the
    [forms] module, and the year string computed when the module is
    imported.  [generate_password_hash] is given the salt it draws. *)
Class Externals : Type := mkExternals
  { generate_password_hash : string -> string -> string;
    check_password_hash : string -> string -> bool;
    RegisterForm_validate : RegisterForm.t -> bool;
    LoginForm_validate : LoginForm.t -> bool;
    CreatePostForm_validate : CreatePostForm.t -> bool;
    CommentForm_validate : CommentForm.t -> bool;
    CURRENT_YEAR_FOR_FOOTER : string }.

(** [form.validate_on_submit()]: the request is a submission and the form
    validates. *)
Definition validate_on_submit (req : Request) (valid : bool) : bool :=
  is_POST (method req) && valid.

(** The data a form object holds: what was submitted on a submission, the
    pre-populated defaults otherwise. *)
Definition form_data {F : Type} (req : Request) (submitted defaults : F) : F :=
  if is_POST (method req) then submitted else defaults.

(** ** The view functions *)

Section Views.
Context `{E : Externals}.

Definition get_all_posts : View unit :=
  fun _ _ =>
    posts <- gets (fun st => BlogPost_query_all (db st)) ;;
    ret (render_template "index.html"
           [("all_posts", VPosts posts);
            ("current_year", VStr CURRENT_YEAR_FOR_FOOTER)]).

Definition register : View RegisterForm.t :=
  fun submitted req =>
    let register_form := form_data req submitted RegisterForm.blank in
    if validate_on_submit req (RegisterForm_validate register_form) then
      let hash_and_salted_password :=
        generate_password_hash (RegisterForm.password register_form) (salt req) in
      existing <- gets (fun st =>
        User_query_filter_by_email (RegisterForm.email register_form) (db st)) ;;
      match existing with
      | Some _ =>
          flash "You've already signed up with that email, log in instead!" ;;
          ret (redirect (url_for "login" []))
      | None =>
          new_user <- add_User (RegisterForm.name register_form)
                               (RegisterForm.email register_form)
                               hash_and_salted_password ;;
          match new_user with
          | None => ret (unhandled "DataError")
          | Some new_user =>
              login_user new_user ;;
              ret (redirect (url_for "get_all_posts" []))
          end
      end
    else
      ret (render_template "register.html"
             [("form", VRegisterForm register_form);
              ("current_year", VStr CURRENT_YEAR_FOR_FOOTER)]).

Definition login : View LoginForm.t :=
  fun submitted req =>
    let login_form := form_data req submitted LoginForm.blank in
    if validate_on_submit req (LoginForm_validate login_form) then
      user <- gets (fun st =>
        User_query_filter_by_email (LoginForm.email login_form) (db st)) ;;
      match user with
      | Some user =>
          if check_password_hash (User.password user)
                                 (LoginForm.password login_form)
          then
            login_user user ;;
            ret (redirect (url_for "get_all_posts" []))
          else
            flash "Password incorrect, please try again." ;;
            ret (redirect (url_for "login" []))
      | None =>
          flash "That email does not exist, please try again." ;;
          ret (redirect (url_for "login" []))
      end
    else
      ret (render_template "login.html"
             [("form", VLoginForm login_form);
              ("current_year", VStr CURRENT_YEAR_FOR_FOOTER)]).

Definition logout : View unit :=
  fun _ _ =>
    logout_user ;;
    ret (redirect (url_for "get_all_posts" [])).

(** The page [show_post] renders on every path that reaches its last
    line. *)
Definition post_page (requested_post : option BlogPost.t) (form : CommentForm.t)
           (all_comments_of_post : list Comment.t) : Response :=
  render_template "post.html"
    [("post", VPost requested_post);
     ("form", VCommentForm form);
     ("all_comments", VComments all_comments_of_post);
     ("current_year", VStr CURRENT_YEAR_FOR_FOOTER)].

Definition show_post : View (Z * CommentForm.t) :=
  fun '(post_id, submitted) req =>
    requested_post <- gets (fun st => BlogPost_query_filter_by_id post_id (db st)) ;;
    all_comments_of_post <- gets (fun st => Comment_query_all (db st)) ;;
    let form := form_data req submitted CommentForm.blank in
    if validate_on_submit req (CommentForm_validate form) then
      cu <- gets current_user ;;
      match cu with
      | None =>
          flash "you need to log in to comment!" ;;
          ret (redirect (url_for "login" []))
      | Some user =>
          add_Comment (CommentForm.comment_text form) user requested_post ;;
          ret (post_page requested_post form all_comments_of_post)
      end
    else
      ret (post_page requested_post form all_comments_of_post).

(** The function [add_new_post] before its two decorators.  Reached
    without a logged-in user, the assignment [author=current_user] hands
    the ORM an object that is no row, which raises. *)
Definition add_new_post_func : View CreatePostForm.t :=
  fun submitted req =>
    let form := form_data req submitted CreatePostForm.blank in
    if validate_on_submit req (CreatePostForm_validate form) then
      cu <- gets current_user ;;
      match cu with
      | None => ret (unhandled "AttributeError")
      | Some user =>
          new_post <- add_BlogPost (CreatePostForm.title form)
                                   (CreatePostForm.subtitle form)
                                   (CreatePostForm.body form)
                                   (CreatePostForm.img_url form)
                                   user
                                   (today req) ;;
          match new_post with
          | None => ret (unhandled "DataError")
          | Some _ => ret (redirect (url_for "get_all_posts" []))
          end
      end
    else
      ret (render_template "make-post.html"
             [("form", VCreatePostForm form);
              ("current_year", VStr CURRENT_YEAR_FOR_FOOTER)]).

Definition add_new_post : View CreatePostForm.t :=
  login_required (admin_only add_new_post_func).

(** The function [edit_post] before its decorators.  [post.title] on the
    [None] that [query.get] returns for an absent id raises. *)
Definition edit_post_func : View (Z * CreatePostForm.t) :=
  fun '(post_id, submitted) req =>
    post <- gets (fun st => BlogPost_query_get post_id (db st)) ;;
    match post with
    | None => ret (unhandled "AttributeError")
    | Some post =>
        let edit_form :=
          form_data req submitted
            (CreatePostForm.mk (BlogPost.title post) (BlogPost.subtitle post)
                               (BlogPost.img_url post) (BlogPost.body post)) in
        if validate_on_submit req (CreatePostForm_validate edit_form) then
          cu <- gets current_user ;;
          match cu with
          | None => ret (unhandled "AttributeError")
          | Some user =>
              committed <- update_BlogPost post
                (assign_post (CreatePostForm.title edit_form)
                             (CreatePostForm.subtitle edit_form)
                             (CreatePostForm.img_url edit_form)
                             user
                             (CreatePostForm.body edit_form))
                [CreatePostForm.title edit_form;
                 CreatePostForm.subtitle edit_form;
                 CreatePostForm.img_url edit_form] ;;
              if committed
              then ret (redirect (url_for "show_post"
                          [("post_id", VInt (BlogPost.id post));
                           ("current_year", VStr CURRENT_YEAR_FOR_FOOTER)]))
              else ret (unhandled "DataError")
          end
        else
          ret (render_template "make-post.html"
                 [("form", VCreatePostForm edit_form)])
    end.

Definition edit_post : View (Z * CreatePostForm.t) :=
  login_required (admin_only edit_post_func).

(** The function [delete_post] before its decorators.
    [db.session.delete(None)] raises. *)
Definition delete_post_func : View Z :=
  fun post_id _ =>
    post_to_delete <- gets (fun st => BlogPost_query_get post_id (db st)) ;;
    match post_to_delete with
    | None => ret (unhandled "UnmappedInstanceError")
    | Some post =>
        delete_BlogPost post ;;
        ret (redirect (url_for "get_all_posts" []))
    end.

Definition delete_post : View Z :=
  login_required (admin_only delete_post_func).

Definition about : View unit :=
  fun _ _ =>
    ret (render_template "about.html"
           [("current_year", VStr CURRENT_YEAR_FOR_FOOTER)]).

Definition contact : View unit :=
  fun _ _ =>
    ret (render_template "contact.html"
           [("current_year", VStr CURRENT_YEAR_FOR_FOOTER)]).

(** ** Routing *)

(** The URL rules of the application, each with the data a submission to
    it carries. *)
Inductive Route : Type :=
| route_get_all_posts
| route_register (form : RegisterForm.t)
| route_login (form : LoginForm.t)
| route_logout
| route_show_post (post_id : Z) (form : CommentForm.t)
| route_add_new_post (form : CreatePostForm.t)
| route_edit_post (post_id : Z) (form : CreatePostForm.t)
| route_delete_post (post_id : Z)
| route_about
| route_contact.

(** Rules declared without [methods=] accept GET only. *)
Definition allows_POST (r : Route) : bool :=
  match r with
  | route_get_all_posts | route_logout | route_delete_post _ | route_about => false
  | _ => true
  end.

Definition dispatch (r : Route) (req : Request) : M Response :=
  if is_POST (method req) && negb (allows_POST r) then ret (abort 405)
  else
    match r with
    | route_get_all_posts => get_all_posts tt req
    | route_register form => register form req
    | route_login form => login form req
    | route_logout => logout tt req
    | route_show_post post_id form => show_post (post_id, form) req
    | route_add_new_post form => add_new_post form req
    | route_edit_post post_id form => edit_post (post_id, form) req
    | route_delete_post post_id => delete_post post_id req
    | route_about => about tt req
    | route_contact => contact tt req
    end.

(** ** The server and its browsers *)

(** The server keeps the store; every browser keeps its own session
    cookie, which only the responses of the server change. *)
Record World : Type := mkWorld
  { store : Store;
    cookies : nat -> Session }.

Definition boot : World :=
  {| store := empty_store; cookies := fun _ => empty_session |}.

(** The state a request of browser [b] is served on. *)
Definition at_browser (w : World) (b : nat) : St :=
  {| db := store w; session := cookies w b |}.

(** Browser [b] sends a request. *)
Definition browse (w : World) (b : nat) (r : Route) (req : Request) : Response * World :=
  let (resp, st') := dispatch r req (at_browser w b) in
  (resp, {| store := db st';
            cookies := fun b' => if Nat.eqb b' b then session st' else cookies w b' |}).

Fixpoint run (w : World) (trace : list (nat * Route * Request)) : World :=
  match trace with
  | [] => w
  | (b, r, req) :: rest => run (snd (browse w b r req)) rest
  end.

End Views.

(** ** A test double for the imports *)

Fixpoint contains_at (s : string) : bool :=
  match s with
  | EmptyString => false
  | String c rest => Ascii.eqb c "@"%char || contains_at rest
  end.

Definition required (s : string) : bool := negb (String.eqb s "").

Fixpoint after_dollar (s : string) : string :=
  match s with
  | EmptyString => EmptyString
  | String c rest => if Ascii.eqb c "$"%char then rest else after_dollar rest
  end.

(** Modelled from the spec: the [forms] module is not among the sources;
    section 4.4 of the specification lists its constraints (every field
    required, the two email fields in email format).  The email check of
    the double asks for an [@]; its password functions are a transparent
    stand-in that keeps the salt in front of the password.  The double
    only serves to run the views on concrete requests: every theorem
    below holds for all instances of [Externals]. *)
#[local] Instance double : Externals :=
  {| generate_password_hash := fun pw slt => slt ++ "$" ++ pw;
     check_password_hash := fun pwhash pw => String.eqb (after_dollar pwhash) pw;
     RegisterForm_validate := fun f =>
       required (RegisterForm.name f) && required (RegisterForm.email f)
       && contains_at (RegisterForm.email f) && required (RegisterForm.password f);
     LoginForm_validate := fun f =>
       required (LoginForm.email f) && contains_at (LoginForm.email f)
       && required (LoginForm.password f);
     CreatePostForm_validate := fun f =>
       required (CreatePostForm.title f) && required (CreatePostForm.subtitle f)
       && required (CreatePostForm.body f) && required (CreatePostForm.img_url f);
     CommentForm_validate := fun f => required (CommentForm.comment_text f);
     CURRENT_YEAR_FOR_FOOTER := "2023" |}.

(** The end-to-end scenario of the specification, on the double. *)
Module Scenario.
Definition post_req : Request := {| method := POST; salt := "a1B2c3D4"; today := "May 04, 2023" |}.
Definition get_req : Request := {| method := GET; salt := "e5F6g7H8"; today := "May 04, 2023" |}.

Definition admin_form := RegisterForm.mk "Root" "root@x.com" "s3cret".
Definition alice_form := RegisterForm.mk "Alice" "a@x.com" "pw123".
Definition hello := CreatePostForm.mk "Hello" "World" "http://img" "<p>hi</p>".
Definition nice := CommentForm.mk "<p>nice</p>".

(** Browser 0 is the administrator, browser 1 is Alice. *)
Definition trace : list (nat * Route * Request) :=
  [ (0%nat, route_register admin_form, post_req);
    (0%nat, route_add_new_post hello, post_req);
    (1%nat, route_register alice_form, post_req);
    (1%nat, route_show_post 1 nice, post_req) ].

(** The states the three browsers see after the trace: the
    administrator, Alice, and a browser nobody has logged in from. *)
Definition as_admin : St := at_browser (run boot trace) 0.
Definition as_alice : St := at_browser (run boot trace) 1.
Definition as_visitor : St := at_browser (run boot trace) 2.

Definition root : User.t := User.mk 1 "Root" "root@x.com" "a1B2c3D4$s3cret".
Definition alice : User.t := User.mk 2 "Alice" "a@x.com" "a1B2c3D4$pw123".
Definition first_post : BlogPost.t :=
  BlogPost.mk 1 "Hello" "World" "May 04, 2023" "<p>hi</p>" "http://img" (Some 1).

Definition alice_login := LoginForm.mk "a@x.com" "pw123".
Definition revised := CreatePostForm.mk "Hello again" "World" "http://img2" "<p>ho</p>".

(** Alice registers on an empty site and comments at a post id that
    does not exist. *)
Definition stray_comment : list (nat * Route * Request) :=
  [ (0%nat, route_register alice_form, post_req);
    (0%nat, route_show_post 7 nice, post_req) ].
End Scenario.


(** ** Properties of stores *)

(** A foreign key that names a row of the table it points into. *)
Definition refers_to_user (s : Store) (ref : option Z) : Prop :=
  exists u, In u (users s) /\ ref = Some (User.id u).

Definition refers_to_post (s : Store) (ref : option Z) : Prop :=
  exists p, In p (blog_posts s) /\ ref = Some (BlogPost.id p).

(** Every author link, of a post or of a comment, names a stored user. *)
Definition authors_exist (s : Store) : Prop :=
  (forall p, In p (blog_posts s) -> refers_to_user s (BlogPost.author_id p)) /\
  (forall c, In c (comments s) -> refers_to_user s (Comment.author_id c)).

(** Every comment has a parent post, and the post is stored. *)
Definition parents_exist (s : Store) : Prop :=
  forall c, In c (comments s) -> refers_to_post s (Comment.post_id c).

(** Every comment that has a parent post has a stored one. *)
Definition parents_exist_or_null (s : Store) : Prop :=
  forall c, In c (comments s) ->
    Comment.post_id c = None \/ refers_to_post s (Comment.post_id c).

Definition emails_unique (s : Store) : Prop :=
  NoDup (map User.email (users s)).

(** No stored post has the key [post_id]. *)
Definition post_absent (post_id : Z) (s : Store) : Prop :=
  forall p, In p (blog_posts s) -> BlogPost.id p <> post_id.

(** What a request can do to the store: nothing, or one of the five
    writes of the program, each with what the view has checked before. *)
Inductive Effect (s : Store) : Store -> Prop :=
| effect_none :
    Effect s s
| effect_register n e pw :
    User_query_filter_by_email e s = None ->
    Effect s (insert_User (new_User n e pw s) s)
| effect_new_post ttl sub bd img author dt :
    In author (users s) ->
    Effect s (insert_BlogPost (new_BlogPost ttl sub bd img author dt s) s)
| effect_comment txt author parent :
    In author (users s) ->
    (forall p, parent = Some p -> In p (blog_posts s)) ->
    Effect s (insert_Comment (new_Comment txt author parent s) s)
| effect_edit post ttl sub img author bd :
    In post (blog_posts s) ->
    In author (users s) ->
    Effect s (rewrite_BlogPost post (assign_post ttl sub img author bd) s)
| effect_delete post :
    In post (blog_posts s) ->
    Effect s (remove_BlogPost post s).

(** The outcome of the two decorators around [func]: 401 for the anonymous
    user, 403 for a user whose id is not 1, the call of [func] for user 1;
    the first two leave store and session as they were. *)
Definition guard_outcome {A : Type} (guarded func : View A)
           (args : A) (req : Request) (st : St) : Prop :=
  match current_user st with
  | None => guarded args req st = (abort 401, st)
  | Some u =>
      if User.id u =? 1
      then guarded args req st = func args req st
      else guarded args req st = (abort 403, st)
  end.

(** ** Further properties of stores, sessions and routes *)

(** The keys of a table: distinct, positive and below the next key of the
    sequence. *)
Definition keys_below (ids : list Z) (seq : Z) : Prop :=
  NoDup ids /\ forall k, In k ids -> 1 <= k < seq.

Definition keys_fresh (s : Store) : Prop :=
  keys_below (map User.id (users s)) (users_seq s) /\
  keys_below (map BlogPost.id (blog_posts s)) (blog_posts_seq s) /\
  keys_below (map Comment.id (comments s)) (comments_seq s).

(** [l'] is [l] with rows appended. *)
Definition extends {A : Type} (l l' : list A) : Prop :=
  exists more, l' = (l ++ more)%list.

(** The columns of a comment other than its parent link. *)
Definition comment_core (c : Comment.t) : Z * string * option Z :=
  (Comment.id c, Comment.text c, Comment.author_id c).

(** The session belongs to the user with id 1. *)
Definition is_admin (st : St) : bool :=
  match current_user st with
  | Some u => User.id u =? 1
  | None => false
  end.

Definition is_delete (r : Route) : bool :=
  match r with route_delete_post _ => true | _ => false end.

(** The routes whose views call [login_user] or [logout_user]. *)
Definition sets_identity (r : Route) : bool :=
  match r with
  | route_register _ | route_login _ | route_logout => true
  | _ => false
  end.

(** The routes behind the two decorators. *)
Definition is_guarded (r : Route) : bool :=
  match r with
  | route_add_new_post _ | route_edit_post _ _ | route_delete_post _ => true
  | _ => false
  end.

(** No sequence is below its first key. *)
Definition sequences_started (s : Store) : Prop :=
  1 <= users_seq s /\ 1 <= blog_posts_seq s /\ 1 <= comments_seq s.

(** Every stored post is written by user 1. *)
Definition posts_by_admin (s : Store) : Prop :=
  forall p, In p (blog_posts s) -> BlogPost.author_id p = Some 1.

(** The user who registered first, if any, has id 1. *)
Definition first_user_has_key_1 (s : Store) : Prop :=
  match users s with
  | [] => users_seq s = 1
  | u :: _ => User.id u = 1
  end.

(** More requests on the scenario: Bob registers from a third browser. *)
Module Tour.
Definition bob_form := RegisterForm.mk "Bob" "b@x.com" "hunter2".
Definition bob : User.t := User.mk 3 "Bob" "b@x.com" "a1B2c3D4$hunter2".
Definition visited : World := run boot Scenario.trace.
Definition later : list (nat * Route * Request) :=
  [ (0%nat, route_logout, Scenario.get_req);
    (1%nat, route_show_post 1 Scenario.nice, Scenario.post_req) ].
End Tour.

(** [l'] holds the rows of [l] and possibly more, in some order. *)
Definition extends_unordered {A : Type} (l l' : list A) : Prop :=
  exists more, Permutation l' (l ++ more).

(** A submission whose title has 251 characters, and an empty comment
    form. *)
Module Overlong.
Definition title : string := string_of_list_ascii (repeat "a"%char 251).
Definition form := CreatePostForm.mk title "World" "http://img" "<p>hi</p>".
End Overlong.

(** * Results *)

(** Unfolds the monad and the primitives of a view down to pairs. *)
Ltac view :=
  cbv beta delta [bind ret gets flash flash_category login_user logout_user
                  add_User add_BlogPost add_Comment update_BlogPost
                  delete_BlogPost with_db unauthorized] iota;
  simpl.

(** ** Queries *)

Lemma find_in {A : Type} (f : A -> bool) (l : list A) (x : A) :
  find f l = Some x -> In x l.
Proof. intros H. apply find_some in H. tauto. Qed.

Lemma current_user_stored (st : St) (u : User.t) :
  current_user st = Some u -> In u (users (db st)).
Proof.
  unfold current_user, load_user, User_query_filter_by_id.
  destruct (session_user_id (session st)); [apply find_in | discriminate].
Qed.

Lemma post_absent_query (post_id : Z) (s : Store) :
  post_absent post_id s <-> BlogPost_query_filter_by_id post_id s = None.
Proof.
  unfold post_absent, BlogPost_query_filter_by_id. split.
  - intros H. induction (blog_posts s) as [|p l IH]; simpl; [reflexivity|].
    destruct (Z.eqb_spec (BlogPost.id p) post_id) as [e|_].
    + exfalso. apply (H p); [left; reflexivity | exact e].
    + apply IH. intros q Hq. apply H. right. exact Hq.
  - intros H p Hp e.
    apply (find_none _ _ H) in Hp. simpl in Hp.
    apply Z.eqb_neq in Hp. contradiction.
Qed.

Lemma email_absent_query (e : string) (s : Store) :
  User_query_filter_by_email e s = None -> ~ In e (map User.email (users s)).
Proof.
  unfold User_query_filter_by_email. intros H Hin.
  apply in_map_iff in Hin. destruct Hin as (u & Hu & Hin).
  apply (find_none _ _ H) in Hin. simpl in Hin.
  rewrite Hu, String.eqb_refl in Hin. discriminate.
Qed.

Lemma email_present_query (e : string) (s : Store) :
  In e (map User.email (users s)) ->
  exists u, User_query_filter_by_email e s = Some u.
Proof.
  intros Hin.
  destruct (User_query_filter_by_email e s) as [u|] eqn:Hq; [eauto|].
  exfalso. exact (email_absent_query _ _ Hq Hin).
Qed.

Section Guard.
Context `{E : Externals}.

Lemma guard_spec {A : Type} (func : View A) (args : A) (req : Request) (st : St) :
  guard_outcome (login_required (admin_only func)) func args req st.
Proof.
  unfold guard_outcome, login_required, admin_only.
  cbv beta delta [bind ret gets unauthorized] iota.
  destruct (current_user st) as [u|] eqn:Hcu; cbn; [|reflexivity].
  rewrite Hcu. destruct (User.id u =? 1); reflexivity.
Qed.

(** C1 (as amended).  On each of the three administrator routes: the
    anonymous requester is answered 401 (the login manager has no login
    view to redirect to), an authenticated user whose id is not 1 is
    answered 403, in both cases with store and session untouched, so the
    wrapped function has not run; only user 1 gets the wrapped function. *)
Theorem admin_routes_guarded (req : Request) (st : St) :
  (forall form, guard_outcome add_new_post add_new_post_func form req st) /\
  (forall post_id form,
      guard_outcome edit_post edit_post_func (post_id, form) req st) /\
  (forall post_id, guard_outcome delete_post delete_post_func post_id req st).
Proof.
  repeat split; intros; apply guard_spec.
Qed.
End Guard.

(** C1, as the claim states it, fails: an anonymous GET of [/new-post] is
    not redirected to the login view. *)
Lemma anonymous_admin_request_not_redirected :
  ~ (forall (E : Externals) form req st,
        current_user st = None ->
        exists vals st',
          @add_new_post E form req st = (redirect (url_for "login" vals), st')).
Proof.
  intros H.
  destruct (H double Scenario.hello Scenario.get_req init eq_refl)
    as (vals & st' & Heq).
  vm_compute in Heq. discriminate Heq.
Qed.

(** ** Login, comments and the post page *)

Section Handlers.
Context `{E : Externals}.


(** C5 (as amended).  A comment submission by a requester who is not
    logged in writes nothing: the store is the one the request found.
    When the form validates, the notice is flashed and the browser is
    sent to the login view; when it does not, the page is rendered again,
    with no notice and no redirect. *)
Theorem anonymous_comment_rejected
        (post_id : Z) (form : CommentForm.t) (req : Request) (st : St) :
  method req = POST ->
  is_authenticated (current_user st) = false ->
  let (resp, st') := show_post (post_id, form) req st in
  db st' = db st /\
  session_user_id (session st') = session_user_id (session st) /\
  if CommentForm_validate form
  then
    resp = redirect (url_for "login" []) /\
    session_flashes (session st') =
      (session_flashes (session st)
         ++ [("message", "you need to log in to comment!")])%list
  else
    (exists context, resp = render_template "post.html" context) /\
    session_flashes (session st') = session_flashes (session st).
Proof.
  intros Hm Hanon.
  unfold show_post, form_data, validate_on_submit, post_page. rewrite Hm. simpl.
  destruct (CommentForm_validate form); view.
  - destruct (current_user st); [discriminate Hanon|]. simpl. auto.
  - repeat split. eexists. reflexivity.
Qed.

(** C7.  Whatever the post id, whenever [show_post] renders its page the
    comment list it passes is the whole comments table as the request
    found it; the only other outcome is the redirect of an anonymous
    valid submission. *)
Theorem show_post_lists_all_comments
        (post_id : Z) (form : CommentForm.t) (req : Request) (st : St) :
  match fst (show_post (post_id, form) req st) with
  | render_template template context =>
      template = "post.html" /\
      lookup "all_comments" context = Some (VComments (comments (db st)))
  | redirect _ =>
      method req = POST /\ CommentForm_validate form = true /\
      current_user st = None
  | _ => False
  end.
Proof.
  unfold show_post, form_data, validate_on_submit, post_page, Comment_query_all.
  destruct (method req); simpl.
  - view. auto.
  - destruct (CommentForm_validate form) eqn:Hv; view; [|auto].
    destruct (current_user st); simpl; auto.
Qed.

(** C10.  A valid comment submission by a logged-in user at a post id
    that no stored post has: the view neither aborts nor raises; it
    appends a comment with a null [post_id], written by that user, and
    hands [post.html] the post [None]. *)
Theorem comment_on_absent_post
        (post_id : Z) (form : CommentForm.t) (req : Request) (st : St)
        (user : User.t) :
  method req = POST ->
  CommentForm_validate form = true ->
  current_user st = Some user ->
  post_absent post_id (db st) ->
  show_post (post_id, form) req st =
    (render_template "post.html"
       [("post", VPost None);
        ("form", VCommentForm form);
        ("all_comments", VComments (comments (db st)));
        ("current_year", VStr CURRENT_YEAR_FOR_FOOTER)],
     {| db := insert_Comment
                {| Comment.id := comments_seq (db st);
                   Comment.text := CommentForm.comment_text form;
                   Comment.post_id := None;
                   Comment.author_id := Some (User.id user) |}
                (db st);
        session := session st |}).
Proof.
  intros Hm Hv Hcu Habs. apply post_absent_query in Habs.
  unfold show_post, form_data, validate_on_submit. rewrite Hm. simpl. rewrite Hv.
  view. rewrite Habs, Hcu. reflexivity.
Qed.

(** C4 (as amended).  At a post id that no stored post has, [show_post]
    answers with no abort at all, so with no 404: it goes on with the
    post [None], and either renders [post.html] with [post = None] or,
    on a valid submission of an anonymous requester, redirects to the
    login view. *)
Theorem show_post_absent_post
        (post_id : Z) (form : CommentForm.t) (req : Request) (st : St) :
  post_absent post_id (db st) ->
  let resp := fst (show_post (post_id, form) req st) in
  (forall code, resp <> abort code) /\
  ((exists context,
       resp = render_template "post.html" context /\
       lookup "post" context = Some (VPost None))
   \/ (resp = redirect (url_for "login" []) /\
       method req = POST /\ CommentForm_validate form = true /\
       current_user st = None)).
Proof.
  intros Habs. apply post_absent_query in Habs.
  unfold show_post, form_data, validate_on_submit, post_page.
  destruct (method req); simpl.
  - view. rewrite Habs. simpl. split; [discriminate|]. left. eauto.
  - destruct (CommentForm_validate form) eqn:Hv; view; rewrite Habs.
    + destruct (current_user st); simpl.
      * split; [discriminate|]. left. eauto.
      * split; [discriminate|]. right. auto.
    + simpl. split; [discriminate|]. left. eauto.
Qed.
End Handlers.

(** ** Editing a post *)

Lemma BlogPost_eqb_eq (p q : BlogPost.t) : BlogPost_eqb p q = true -> p = q.
Proof.
  destruct p as [i1 t1 s1 d1 b1 u1 a1], q as [i2 t2 s2 d2 b2 u2 a2].
  unfold BlogPost_eqb. simpl. intros H.
  repeat (apply andb_true_iff in H; destruct H as [H ?]).
  apply Z.eqb_eq in H.
  repeat match goal with
         | Hs : String.eqb _ _ = true |- _ => apply String.eqb_eq in Hs
         end.
  assert (a1 = a2).
  { destruct a1, a2; simpl in *; try discriminate; [|reflexivity].
    f_equal. apply Z.eqb_eq. assumption. }
  congruence.
Qed.

Lemma BlogPost_eqb_refl (p : BlogPost.t) : BlogPost_eqb p p = true.
Proof.
  unfold BlogPost_eqb. rewrite Z.eqb_refl, !String.eqb_refl. simpl.
  destruct (BlogPost.author_id p); simpl; [apply Z.eqb_refl | reflexivity].
Qed.

Lemma columns_fit_iff (vs : list string) :
  columns_fit vs = true <-> forall v, In v vs -> (String.length v <= 250)%nat.
Proof.
  unfold columns_fit, String_250. rewrite forallb_forall.
  split; intros H v Hv; apply Nat.leb_le; apply H; exact Hv.
Qed.

Lemma find_app_split {A : Type} (g : A -> bool) (l1 l2 : list A) :
  find g (l1 ++ l2)
  = match find g l1 with Some x => Some x | None => find g l2 end.
Proof.
  induction l1 as [|a l1 IH]; simpl; [reflexivity|].
  destruct (g a); [reflexivity | exact IH].
Qed.

Lemma find_filter_out (k : Z) (l : list BlogPost.t) :
  find (fun p => BlogPost.id p =? k)
       (filter (fun p => negb (BlogPost.id p =? k)) l) = None.
Proof.
  induction l as [|p l IH]; simpl; [reflexivity|].
  destruct (BlogPost.id p =? k) eqn:Hk; simpl; [exact IH|].
  rewrite Hk. exact IH.
Qed.

Lemma find_filter_other (k q : Z) (l : list BlogPost.t) :
  q <> k ->
  find (fun p => BlogPost.id p =? q)
       (filter (fun p => negb (BlogPost.id p =? k)) l)
  = find (fun p => BlogPost.id p =? q) l.
Proof.
  intros Hq. induction l as [|p l IH]; simpl; [reflexivity|].
  destruct (Z.eqb_spec (BlogPost.id p) k) as [Hk|Hk]; simpl.
  - destruct (Z.eqb_spec (BlogPost.id p) q); [congruence | exact IH].
  - destruct (BlogPost.id p =? q); [reflexivity | exact IH].
Qed.

Lemma find_key_moved (post p0 : BlogPost.t) (f : BlogPost.t -> BlogPost.t)
      (l : list BlogPost.t) :
  (forall p, BlogPost.id (f p) = BlogPost.id p) ->
  find (fun p => BlogPost.id p =? BlogPost.id post) l = Some p0 ->
  find (fun p => BlogPost.id p =? BlogPost.id post) (map f (filter (has_key post) l))
  = Some (f p0).
Proof.
  intros Hid. unfold has_key.
  induction l as [|p l IH]; simpl; [discriminate|].
  destruct (BlogPost.id p =? BlogPost.id post) eqn:Hk; simpl.
  - rewrite Hid, Hk. intros Heq. congruence.
  - exact IH.
Qed.

Lemma find_moved_other (post : BlogPost.t) (q : Z) (f : BlogPost.t -> BlogPost.t)
      (l : list BlogPost.t) :
  (forall p, BlogPost.id (f p) = BlogPost.id p) ->
  q <> BlogPost.id post ->
  find (fun p => BlogPost.id p =? q) (map f (filter (has_key post) l)) = None.
Proof.
  intros Hid Hq. unfold has_key.
  induction l as [|p l IH]; simpl; [reflexivity|].
  destruct (Z.eqb_spec (BlogPost.id p) (BlogPost.id post)) as [Hk|Hk]; simpl;
    [|exact IH].
  rewrite Hid. destruct (Z.eqb_spec (BlogPost.id p) q); [congruence | exact IH].
Qed.

Lemma find_rewritten (post : BlogPost.t) (q : Z) (f : BlogPost.t -> BlogPost.t)
      (s : Store) :
  (forall p, BlogPost.id (f p) = BlogPost.id p) ->
  q <> BlogPost.id post ->
  BlogPost_query_get q (rewrite_BlogPost post f s) = BlogPost_query_get q s.
Proof.
  intros Hid Hq. unfold BlogPost_query_get, rewrite_BlogPost. simpl.
  rewrite find_app_split.
  unfold has_key at 1. rewrite (find_filter_other _ _ _ Hq).
  rewrite (find_moved_other _ _ _ _ Hid Hq).
  destruct (find (fun p => BlogPost.id p =? q) (blog_posts s)); reflexivity.
Qed.

Lemma find_rewritten_key (post p0 : BlogPost.t) (f : BlogPost.t -> BlogPost.t)
      (s : Store) :
  (forall p, BlogPost.id (f p) = BlogPost.id p) ->
  BlogPost_query_get (BlogPost.id post) s = Some p0 ->
  BlogPost_query_get (BlogPost.id post) (rewrite_BlogPost post f s) = Some (f p0).
Proof.
  intros Hid Hget. unfold BlogPost_query_get, rewrite_BlogPost in *. simpl.
  rewrite find_app_split.
  unfold has_key at 1. rewrite find_filter_out.
  apply find_key_moved; assumption.
Qed.

Lemma partition_permutation {A : Type} (g : A -> bool) (l : list A) :
  Permutation l (filter (fun x => negb (g x)) l ++ filter g l).
Proof.
  induction l as [|a l IH]; simpl; [constructor|].
  destruct (g a); simpl.
  - apply Permutation_cons_app. exact IH.
  - constructor. exact IH.
Qed.

(** Rows that are rewritten keep what [key] reads of them: the table
    holds the same keys after the rewrite, in another order. *)
Lemma moved_permutation {A K : Type} (key : A -> K) (f : A -> A) (g : A -> bool)
      (l : list A) :
  (forall x, key (f x) = key x) ->
  Permutation (map key (filter (fun x => negb (g x)) l ++ map f (filter g l)))
              (map key l).
Proof.
  intros Hkey. rewrite map_app, map_map.
  rewrite (map_ext _ key Hkey), <- map_app.
  apply Permutation_sym, Permutation_map, partition_permutation.
Qed.

Lemma query_get_id (post_id : Z) (s : Store) (post : BlogPost.t) :
  BlogPost_query_get post_id s = Some post -> BlogPost.id post = post_id.
Proof.
  unfold BlogPost_query_get. intros H. apply find_some in H.
  destruct H as [_ H]. apply Z.eqb_eq. exact H.
Qed.

Section Edit.
Context `{E : Externals}.

(** C8 (as amended).  A valid edit submission by the administrator on a
    stored post, with a title, a subtitle and an image URL of at most 250
    characters each: the row of the post gets the submitted title,
    subtitle, image URL and body and the logged-in user as author, and
    keeps its id and its date; every other post reads as before, the
    table holds the same ids, users, comments, sequences and session are
    untouched; the browser is sent to the detail page of the post. *)
Theorem edit_submission
        (post_id : Z) (form : CreatePostForm.t) (req : Request) (st : St)
        (admin : User.t) (post : BlogPost.t) :
  method req = POST ->
  CreatePostForm_validate form = true ->
  current_user st = Some admin ->
  User.id admin = 1 ->
  BlogPost_query_get post_id (db st) = Some post ->
  (String.length (CreatePostForm.title form) <= 250)%nat ->
  (String.length (CreatePostForm.subtitle form) <= 250)%nat ->
  (String.length (CreatePostForm.img_url form) <= 250)%nat ->
  let (resp, st') := edit_post (post_id, form) req st in
  resp = redirect (url_for "show_post"
                     [("post_id", VInt post_id);
                      ("current_year", VStr CURRENT_YEAR_FOR_FOOTER)]) /\
  BlogPost_query_get post_id (db st') =
    Some {| BlogPost.id := post_id;
            BlogPost.title := CreatePostForm.title form;
            BlogPost.subtitle := CreatePostForm.subtitle form;
            BlogPost.date := BlogPost.date post;
            BlogPost.body := CreatePostForm.body form;
            BlogPost.img_url := CreatePostForm.img_url form;
            BlogPost.author_id := Some (User.id admin) |} /\
  (forall q, q <> post_id ->
             BlogPost_query_get q (db st') = BlogPost_query_get q (db st)) /\
  Permutation (map BlogPost.id (blog_posts (db st')))
              (map BlogPost.id (blog_posts (db st))) /\
  users (db st') = users (db st) /\
  comments (db st') = comments (db st) /\
  users_seq (db st') = users_seq (db st) /\
  blog_posts_seq (db st') = blog_posts_seq (db st) /\
  comments_seq (db st') = comments_seq (db st) /\
  session st' = session st.
Proof.
  intros Hm Hv Hcu Hadmin Hget Ht Hs Hi.
  pose proof (query_get_id _ _ _ Hget) as Hid.
  assert (Hfit : columns_fit [CreatePostForm.title form;
                              CreatePostForm.subtitle form;
                              CreatePostForm.img_url form] = true).
  { apply columns_fit_iff. intros v [<-|[<-|[<-|[]]]]; assumption. }
  pose proof (guard_spec edit_post_func (post_id, form) req st) as Hg.
  unfold guard_outcome in Hg. rewrite Hcu, Hadmin in Hg. simpl in Hg.
  unfold edit_post. rewrite Hg. clear Hg.
  unfold edit_post_func, form_data, validate_on_submit.
  cbv beta delta [bind ret gets] iota.
  rewrite Hget, Hm. simpl. rewrite Hv, Hcu.
  unfold update_BlogPost. rewrite Hfit.
  set (f := assign_post (CreatePostForm.title form) (CreatePostForm.subtitle form)
                        (CreatePostForm.img_url form) admin
                        (CreatePostForm.body form)).
  assert (Hkeep : forall p, BlogPost.id (f p) = BlogPost.id p) by reflexivity.
  assert (Hrow : f post =
                 {| BlogPost.id := post_id;
                    BlogPost.title := CreatePostForm.title form;
                    BlogPost.subtitle := CreatePostForm.subtitle form;
                    BlogPost.date := BlogPost.date post;
                    BlogPost.body := CreatePostForm.body form;
                    BlogPost.img_url := CreatePostForm.img_url form;
                    BlogPost.author_id := Some (User.id admin) |}).
  { unfold f, assign_post. rewrite Hid. reflexivity. }
  destruct (BlogPost_eqb (f post) post) eqn:Hsame; simpl.
  - apply BlogPost_eqb_eq in Hsame.
    split; [rewrite Hid; reflexivity|].
    split; [rewrite Hget, <- Hrow, Hsame; reflexivity|].
    split; [reflexivity|].
    split; [apply Permutation_refl|].
    repeat split; reflexivity.
  - split; [rewrite Hid; reflexivity|].
    split.
    { rewrite <- Hrow. rewrite <- Hid in Hget |- *.
      apply find_rewritten_key; assumption. }
    split.
    { intros q Hq. apply find_rewritten; [exact Hkeep | congruence]. }
    split.
    { unfold rewrite_BlogPost. simpl. apply moved_permutation. exact Hkeep. }
    repeat split; reflexivity.
Qed.

End Edit.

(** C8, as the claim states it, fails: a valid submission of the
    administrator whose title has 251 characters is refused by the store;
    the view raises and the post keeps its old title. *)
Lemma overlong_edit_not_written :
  ~ (forall (E : Externals) post_id form req st admin post,
        method req = POST ->
        CreatePostForm_validate form = true ->
        current_user st = Some admin ->
        User.id admin = 1 ->
        BlogPost_query_get post_id (db st) = Some post ->
        exists vals,
          fst (@edit_post E (post_id, form) req st) = redirect (url_for "show_post" vals)).
Proof.
  intros H.
  destruct (H double 1 Overlong.form Scenario.post_req Scenario.as_admin
              Scenario.root Scenario.first_post
              eq_refl eq_refl eq_refl eq_refl eq_refl) as [vals Heq].
  vm_compute in Heq. discriminate Heq.
Qed.


(** ** What a request does to the store *)

Section Effects.
Context `{E : Externals}.

Lemma register_effect form req st :
  Effect (db st) (db (snd (register form req st))).
Proof.
  unfold register.
  destruct (validate_on_submit req _); [|apply effect_none].
  view.
  destruct (User_query_filter_by_email _ (db st)) eqn:Hq; simpl.
  - apply effect_none.
  - destruct (columns_fit _); simpl.
    + apply effect_register. exact Hq.
    + apply effect_none.
Qed.

Lemma login_effect form req st :
  Effect (db st) (db (snd (login form req st))).
Proof.
  unfold login.
  destruct (validate_on_submit req _); [|apply effect_none].
  view.
  destruct (User_query_filter_by_email _ (db st)) as [user|]; simpl.
  - destruct (check_password_hash _ _); apply effect_none.
  - apply effect_none.
Qed.

Lemma show_post_effect args req st :
  Effect (db st) (db (snd (show_post args req st))).
Proof.
  destruct args as [post_id form]. unfold show_post.
  destruct (validate_on_submit req _); view; [|apply effect_none].
  destruct (current_user st) as [user|] eqn:Hcu; simpl.
  - apply effect_comment.
    + apply current_user_stored. exact Hcu.
    + intros p Hp. unfold BlogPost_query_filter_by_id in Hp.
      apply find_in in Hp. exact Hp.
  - apply effect_none.
Qed.

Lemma add_new_post_func_effect form req st :
  Effect (db st) (db (snd (add_new_post_func form req st))).
Proof.
  unfold add_new_post_func.
  destruct (validate_on_submit req _); view; [|apply effect_none].
  destruct (current_user st) as [user|] eqn:Hcu; simpl.
  - destruct (columns_fit _); simpl.
    + apply effect_new_post. apply current_user_stored. exact Hcu.
    + apply effect_none.
  - apply effect_none.
Qed.

Lemma edit_post_func_effect args req st :
  Effect (db st) (db (snd (edit_post_func args req st))).
Proof.
  destruct args as [post_id form]. unfold edit_post_func. view.
  destruct (BlogPost_query_get post_id (db st)) as [post|] eqn:Hget;
    [|apply effect_none].
  destruct (validate_on_submit req _); view; [|apply effect_none].
  destruct (current_user st) as [user|] eqn:Hcu; simpl.
  - destruct (BlogPost_eqb _ post); simpl; [apply effect_none|].
    destruct (columns_fit _); simpl; [|apply effect_none].
    apply effect_edit.
    + unfold BlogPost_query_get in Hget. apply find_in in Hget. exact Hget.
    + apply current_user_stored. exact Hcu.
  - apply effect_none.
Qed.

Lemma delete_post_func_effect post_id req st :
  Effect (db st) (db (snd (delete_post_func post_id req st))).
Proof.
  unfold delete_post_func. view.
  destruct (BlogPost_query_get post_id (db st)) as [post|] eqn:Hget; simpl.
  - apply effect_delete.
    unfold BlogPost_query_get in Hget. apply find_in in Hget. exact Hget.
  - apply effect_none.
Qed.

Lemma guarded_effect {A : Type} (func : View A) :
  (forall args req st, Effect (db st) (db (snd (func args req st)))) ->
  forall args req st,
    Effect (db st) (db (snd (login_required (admin_only func) args req st))).
Proof.
  intros Hfunc args req st.
  pose proof (guard_spec func args req st) as Hg. unfold guard_outcome in Hg.
  destruct (current_user st) as [u|].
  - destruct (User.id u =? 1); rewrite Hg; [apply Hfunc | apply effect_none].
  - rewrite Hg. apply effect_none.
Qed.

Lemma dispatch_effect r req st :
  Effect (db st) (db (snd (dispatch r req st))).
Proof.
  unfold dispatch.
  destruct (is_POST (method req) && negb (allows_POST r)); [apply effect_none|].
  destruct r.
  - apply effect_none.
  - apply register_effect.
  - apply login_effect.
  - apply effect_none.
  - apply show_post_effect.
  - apply (guarded_effect add_new_post_func add_new_post_func_effect).
  - apply (guarded_effect edit_post_func edit_post_func_effect).
  - apply (guarded_effect delete_post_func delete_post_func_effect).
  - apply effect_none.
  - apply effect_none.
Qed.

Lemma browse_effect w b r req :
  Effect (store w) (store (snd (browse w b r req))).
Proof.
  unfold browse.
  pose proof (dispatch_effect r req (at_browser w b)) as H.
  destruct (dispatch r req (at_browser w b)) as [resp st']. exact H.
Qed.

(** A property of stores that every effect preserves holds after every
    trace that starts where it holds. *)
Lemma run_preserves (P : Store -> Prop) :
  (forall s s', Effect s s' -> P s -> P s') ->
  forall trace w, P (store w) -> P (store (run w trace)).
Proof.
  intros Hstep trace.
  induction trace as [|[[b r] req] rest IH]; intros w Hw; simpl; [exact Hw|].
  apply IH. apply (Hstep (store w)); [apply browse_effect | exact Hw].
Qed.
End Effects.

(** ** Invariants of the store *)

Lemma NoDup_snoc {A : Type} (l : list A) (x : A) :
  NoDup l -> ~ In x l -> NoDup (l ++ [x]).
Proof.
  intros Hl Hx. induction Hl as [|y l Hy Hl IH]; simpl.
  - constructor; [intros [] | constructor].
  - constructor.
    + intros Hin. apply in_app_or in Hin. destruct Hin as [Hin|[Heq|[]]].
      * contradiction.
      * apply Hx. left. symmetry. exact Heq.
    + apply IH. intros Hin. apply Hx. right. exact Hin.
Qed.

Lemma effect_emails_unique s s' :
  Effect s s' -> emails_unique s -> emails_unique s'.
Proof.
  unfold emails_unique. intros Heff Hs.
  destruct Heff as [|n e pw Hq| | | |]; simpl; try exact Hs.
  rewrite map_app. simpl. apply NoDup_snoc; [exact Hs|].
  apply email_absent_query. exact Hq.
Qed.

Lemma refers_to_user_more s s' ref :
  (forall u, In u (users s) -> In u (users s')) ->
  refers_to_user s ref -> refers_to_user s' ref.
Proof.
  intros Hsub (u & Hu & Href). exists u. split; [apply Hsub; exact Hu | exact Href].
Qed.

Lemma in_moved {A : Type} (g : A -> bool) (f : A -> A) (l : list A) (x : A) :
  In x (filter (fun a => negb (g a)) l ++ map f (filter g l)) <->
  In x (map (fun a => if g a then f a else a) l).
Proof.
  rewrite in_app_iff, !in_map_iff. split.
  - intros [Hin|(a & Ha & Hin)].
    + apply filter_In in Hin. destruct Hin as [Hin Hg].
      apply negb_true_iff in Hg. exists x. rewrite Hg. auto.
    + apply filter_In in Hin. destruct Hin as [Hin Hg].
      exists a. rewrite Hg. auto.
  - intros (a & Ha & Hin). destruct (g a) eqn:Hg.
    + right. exists a. split; [exact Ha|]. apply filter_In. auto.
    + left. subst x. apply filter_In. split; [exact Hin|].
      rewrite Hg. reflexivity.
Qed.

Lemma detach_unattached (post : BlogPost.t) (c : Comment.t) :
  attached_to post c = false -> detach_comment post c = c.
Proof.
  unfold attached_to, detach_comment.
  destruct (Comment.post_id c) as [pid|]; [|reflexivity].
  intros ->. reflexivity.
Qed.

(** The comments a delete leaves are the detached versions of the
    comments it found. *)
Lemma in_detached (post : BlogPost.t) (l : list Comment.t) (x : Comment.t) :
  In x (filter (fun c => negb (attached_to post c)) l
        ++ map (detach_comment post) (filter (attached_to post) l)) <->
  In x (map (detach_comment post) l).
Proof.
  rewrite in_moved, !in_map_iff.
  split; intros (c & Hc & Hin); exists c; split; try exact Hin.
  - destruct (attached_to post c) eqn:Ha; [exact Hc|].
    rewrite detach_unattached by exact Ha. exact Hc.
  - destruct (attached_to post c) eqn:Ha; [exact Hc|].
    rewrite detach_unattached in Hc by exact Ha. exact Hc.
Qed.

Lemma effect_authors_exist s s' :
  Effect s s' -> authors_exist s -> authors_exist s'.
Proof.
  intros Heff [Hposts Hcomments].
  destruct Heff as [ | n e pw Hq
                     | ttl sub bd img author dt Hauthor
                     | txt author parent Hauthor Hparent
                     | post ttl sub img author bd Hpost Hauthor
                     | post Hpost ].
  - split; assumption.
  - split; intros x Hx.
    + apply (refers_to_user_more s); [|apply Hposts; exact Hx].
      intros u Hu. simpl. apply in_or_app. left. exact Hu.
    + apply (refers_to_user_more s); [|apply Hcomments; exact Hx].
      intros u Hu. simpl. apply in_or_app. left. exact Hu.
  - split; intros x Hx.
    + simpl in Hx. apply in_app_or in Hx. destruct Hx as [Hx|[Hx|[]]].
      * apply (refers_to_user_more s); [auto | apply Hposts; exact Hx].
      * subst x. exists author. split; [exact Hauthor | reflexivity].
    + apply (refers_to_user_more s); [auto | apply Hcomments; exact Hx].
  - split; intros x Hx.
    + apply (refers_to_user_more s); [auto | apply Hposts; exact Hx].
    + simpl in Hx. apply in_app_or in Hx. destruct Hx as [Hx|[Hx|[]]].
      * apply (refers_to_user_more s); [auto | apply Hcomments; exact Hx].
      * subst x. exists author. split; [exact Hauthor | reflexivity].
  - split; intros x Hx.
    + simpl in Hx. apply in_moved, in_map_iff in Hx.
      destruct Hx as (p & Hp & Hin).
      destruct (has_key post p).
      * subst x. exists author. split; [exact Hauthor | reflexivity].
      * subst x. apply (refers_to_user_more s); [auto | apply Hposts; exact Hin].
    + apply (refers_to_user_more s); [auto | apply Hcomments; exact Hx].
  - split; intros x Hx.
    + simpl in Hx. apply filter_In in Hx. destruct Hx as [Hx _].
      apply (refers_to_user_more s); [auto | apply Hposts; exact Hx].
    + simpl in Hx. apply in_detached, in_map_iff in Hx.
      destruct Hx as (c & Hc & Hin).
      apply (refers_to_user_more s); [auto|].
      assert (Hsame : Comment.author_id x = Comment.author_id c).
      { subst x. unfold detach_comment.
        destruct (Comment.post_id c) as [pid|]; [|reflexivity].
        destruct (pid =? BlogPost.id post); reflexivity. }
      rewrite Hsame. apply Hcomments. exact Hin.
Qed.

Lemma refers_to_post_more s s' ref :
  (forall p, In p (blog_posts s) ->
             exists p', In p' (blog_posts s') /\ BlogPost.id p' = BlogPost.id p) ->
  refers_to_post s ref -> refers_to_post s' ref.
Proof.
  intros Hsub (p & Hp & Href). destruct (Hsub p Hp) as (p' & Hp' & Hid).
  exists p'. split; [exact Hp' | rewrite Hid; exact Href].
Qed.

Lemma effect_parents_exist_or_null s s' :
  Effect s s' -> parents_exist_or_null s -> parents_exist_or_null s'.
Proof.
  unfold parents_exist_or_null. intros Heff Hs.
  assert (Hkeep : (forall p, In p (blog_posts s) ->
                     exists p', In p' (blog_posts s') /\ BlogPost.id p' = BlogPost.id p) ->
                  forall c, In c (comments s) ->
                    Comment.post_id c = None \/ refers_to_post s' (Comment.post_id c)).
  { intros Hsub c Hc. destruct (Hs c Hc) as [Hnull|Href]; [left; exact Hnull|].
    right. apply (refers_to_post_more s); assumption. }
  destruct Heff as [ | n e pw Hq
                     | ttl sub bd img author dt Hauthor
                     | txt author parent Hauthor Hparent
                     | post ttl sub img author bd Hpost Hauthor
                     | post Hpost ].
  - exact Hs.
  - apply Hkeep. intros p Hp. exists p. split; [exact Hp | reflexivity].
  - apply Hkeep. intros p Hp. exists p. split; [|reflexivity].
    simpl. apply in_or_app. left. exact Hp.
  - intros c Hc. simpl in Hc. apply in_app_or in Hc. destruct Hc as [Hc|[Hc|[]]].
    + apply Hkeep; [|exact Hc]. intros p Hp. exists p. split; [exact Hp | reflexivity].
    + subst c. simpl. destruct parent as [p|]; [right | left; reflexivity].
      exists p. split; [apply Hparent; reflexivity | reflexivity].
  - apply Hkeep. intros p Hp.
    exists (if has_key post p
            then assign_post ttl sub img author bd p else p).
    split.
    + simpl. apply in_moved, in_map_iff. exists p. split; [reflexivity | exact Hp].
    + destruct (has_key post p); reflexivity.
  - intros x Hx. simpl in Hx. apply in_detached, in_map_iff in Hx.
    destruct Hx as (c & Hc & Hin).
    subst x. unfold detach_comment.
    destruct (Comment.post_id c) as [pid|] eqn:Hpid; [|left; exact Hpid].
    destruct (Z.eqb_spec pid (BlogPost.id post)) as [Heq|Hneq]; [left; reflexivity|].
    right. rewrite Hpid.
    destruct (Hs c Hin) as [Hnull|(p & Hp & Href)]; [congruence|].
    exists p. split; [|congruence].
    simpl. apply filter_In. split; [exact Hp|].
    apply negb_true_iff. apply Z.eqb_neq. congruence.
Qed.

Lemma empty_store_emails_unique : emails_unique empty_store.
Proof. constructor. Qed.

Lemma empty_store_authors_exist : authors_exist empty_store.
Proof. split; intros x []. Qed.

Lemma empty_store_parents : parents_exist_or_null empty_store.
Proof. intros c []. Qed.

(** ** Registration and the reachable stores *)

Section Reachable.
Context `{E : Externals}.

(** C3.  A valid registration with an email some stored user already
    has writes nothing to the store, leaves the session identity alone,
    flashes the notice and redirects to the login view; and after any
    sequence of requests from any browsers, starting on the empty
    database, no two users share an email. *)
Theorem register_existing_email :
  (forall (form : RegisterForm.t) (req : Request) (st : St),
      method req = POST ->
      RegisterForm_validate form = true ->
      In (RegisterForm.email form) (map User.email (users (db st))) ->
      let (resp, st') := register form req st in
      resp = redirect (url_for "login" []) /\
      db st' = db st /\
      session_user_id (session st') = session_user_id (session st) /\
      session_flashes (session st') =
        (session_flashes (session st)
           ++ [("message",
                "You've already signed up with that email, log in instead!")])%list)
  /\ (forall trace, emails_unique (store (run boot trace))).
Proof.
  split.
  - intros form req st Hm Hv Hin.
    destruct (email_present_query _ _ Hin) as [u Hq].
    unfold register, form_data, validate_on_submit.
    rewrite Hm. simpl. rewrite Hv. view. rewrite Hq. simpl. auto.
  - intros trace.
    apply (run_preserves emails_unique effect_emails_unique).
    exact empty_store_emails_unique.
Qed.

(** C9 (as amended).  After any sequence of requests from any browsers,
    starting on the empty database: the author link of every post and of
    every comment names a stored user, and the parent link of every
    comment is null or names a stored post. *)
Theorem links_never_dangle (trace : list (nat * Route * Request)) :
  authors_exist (store (run boot trace)) /\
  parents_exist_or_null (store (run boot trace)).
Proof.
  split.
  - apply (run_preserves authors_exist effect_authors_exist).
    exact empty_store_authors_exist.
  - apply (run_preserves parents_exist_or_null effect_parents_exist_or_null).
    exact empty_store_parents.
Qed.
End Reachable.

(** C9, as the claim states it, fails: a reachable store holds a comment
    whose parent link names no stored post. *)
Lemma comment_without_parent_reachable :
  ~ (forall (E : Externals) trace,
        authors_exist (store (@run E boot trace)) /\
        parents_exist (store (@run E boot trace))).
Proof.
  intros H.
  destruct (H double Scenario.stray_comment) as [_ Hparents].
  destruct (Hparents (Comment.mk 1 "<p>nice</p>" None (Some 1)))
    as (p & _ & Href).
  - vm_compute. left. reflexivity.
  - discriminate Href.
Qed.

(** C4, as the claim states it, fails: a GET of a post id that is not
    stored is answered with the rendered page, not with 404. *)
Lemma absent_post_not_404 :
  ~ (forall (E : Externals) post_id form req st,
        post_absent post_id (db st) ->
        fst (@show_post E (post_id, form) req st) = abort 404).
Proof.
  intros H.
  assert (Habs : post_absent 7 (db init)) by (intros p []).
  specialize (H double 7 CommentForm.blank Scenario.get_req init Habs).
  vm_compute in H. discriminate H.
Qed.

(** C5, as the claim states it, fails: an anonymous submission of an
    empty comment does not validate, and is answered with the rendered
    page instead of the redirect to the login view. *)
Lemma anonymous_invalid_comment_not_redirected :
  ~ (forall (E : Externals) post_id form req st,
        method req = POST ->
        is_authenticated (current_user st) = false ->
        fst (@show_post E (post_id, form) req st) = redirect (url_for "login" [])).
Proof.
  intros H.
  specialize (H double 1 CommentForm.blank Scenario.post_req Scenario.as_visitor
                eq_refl eq_refl).
  vm_compute in H. discriminate H.
Qed.

(** ** The theorems at work on the scenario *)

Lemma register_existing_email_witness :
  method Scenario.post_req = POST /\
  RegisterForm_validate Scenario.alice_form = true /\
  In (RegisterForm.email Scenario.alice_form)
     (map User.email (users (db Scenario.as_visitor))) /\
  let (resp, st') := register Scenario.alice_form Scenario.post_req Scenario.as_visitor in
  resp = redirect (url_for "login" []) /\
  db st' = db Scenario.as_visitor /\
  session_user_id (session st') = session_user_id (session Scenario.as_visitor) /\
  session_flashes (session st') =
    (session_flashes (session Scenario.as_visitor)
       ++ [("message",
            "You've already signed up with that email, log in instead!")])%list.
Proof.
  assert (Hin : In (RegisterForm.email Scenario.alice_form)
                   (map User.email (users (db Scenario.as_visitor))))
    by (vm_compute; right; left; reflexivity).
  split; [reflexivity|]. split; [reflexivity|]. split; [exact Hin|].
  exact (proj1 (@register_existing_email double)
               Scenario.alice_form Scenario.post_req Scenario.as_visitor
               eq_refl eq_refl Hin).
Defined.


Lemma anonymous_comment_rejected_witness :
  method Scenario.post_req = POST /\
  is_authenticated (current_user Scenario.as_visitor) = false /\
  let (resp, st') := show_post (1, Scenario.nice) Scenario.post_req Scenario.as_visitor in
  resp = redirect (url_for "login" []) /\ db st' = db Scenario.as_visitor.
Proof.
  split; [reflexivity|]. split; [reflexivity|].
  pose proof (@anonymous_comment_rejected double 1 Scenario.nice Scenario.post_req
                Scenario.as_visitor eq_refl eq_refl) as H.
  destruct (show_post (1, Scenario.nice) Scenario.post_req Scenario.as_visitor)
    as [resp st'].
  destruct H as (Hdb & _ & Hr & _). split; assumption.
Defined.

Lemma comment_on_absent_post_witness :
  method Scenario.post_req = POST /\
  CommentForm_validate Scenario.nice = true /\
  current_user Scenario.as_alice = Some Scenario.alice /\
  post_absent 7 (db Scenario.as_alice) /\
  comments (db (snd (show_post (7, Scenario.nice) Scenario.post_req Scenario.as_alice)))
  = [ Comment.mk 1 "<p>nice</p>" (Some 1) (Some 2);
      Comment.mk 2 "<p>nice</p>" None (Some 2) ].
Proof.
  assert (Habs : post_absent 7 (db Scenario.as_alice))
    by (apply post_absent_query; reflexivity).
  split; [reflexivity|]. split; [reflexivity|]. split; [reflexivity|].
  split; [exact Habs|].
  rewrite (@comment_on_absent_post double 7 Scenario.nice Scenario.post_req
             Scenario.as_alice Scenario.alice eq_refl eq_refl eq_refl Habs).
  reflexivity.
Defined.

Lemma show_post_absent_post_witness :
  post_absent 7 (db Scenario.as_visitor) /\
  forall code,
    fst (show_post (7, Scenario.nice) Scenario.get_req Scenario.as_visitor)
    <> abort code.
Proof.
  assert (Habs : post_absent 7 (db Scenario.as_visitor))
    by (apply post_absent_query; reflexivity).
  split; [exact Habs|].
  exact (proj1 (@show_post_absent_post double 7 Scenario.nice Scenario.get_req
                  Scenario.as_visitor Habs)).
Defined.

Lemma edit_submission_witness :
  method Scenario.post_req = POST /\
  CreatePostForm_validate Scenario.revised = true /\
  current_user Scenario.as_admin = Some Scenario.root /\
  User.id Scenario.root = 1 /\
  BlogPost_query_get 1 (db Scenario.as_admin) = Some Scenario.first_post /\
  (String.length (CreatePostForm.title Scenario.revised) <= 250)%nat /\
  (String.length (CreatePostForm.subtitle Scenario.revised) <= 250)%nat /\
  (String.length (CreatePostForm.img_url Scenario.revised) <= 250)%nat /\
  let (resp, st') := edit_post (1, Scenario.revised) Scenario.post_req Scenario.as_admin in
  resp = redirect (url_for "show_post"
                     [("post_id", VInt 1); ("current_year", VStr "2023")]) /\
  BlogPost_query_get 1 (db st') =
    Some (BlogPost.mk 1 "Hello again" "World" "May 04, 2023" "<p>ho</p>"
                      "http://img2" (Some 1)).
Proof.
  assert (Ht : (String.length (CreatePostForm.title Scenario.revised) <= 250)%nat)
    by (apply Nat.leb_le; reflexivity).
  assert (Hs : (String.length (CreatePostForm.subtitle Scenario.revised) <= 250)%nat)
    by (apply Nat.leb_le; reflexivity).
  assert (Hi : (String.length (CreatePostForm.img_url Scenario.revised) <= 250)%nat)
    by (apply Nat.leb_le; reflexivity).
  do 5 (split; [reflexivity|]).
  split; [exact Ht|]. split; [exact Hs|]. split; [exact Hi|].
  pose proof (@edit_submission double 1 Scenario.revised Scenario.post_req
                Scenario.as_admin Scenario.root Scenario.first_post
                eq_refl eq_refl eq_refl eq_refl eq_refl Ht Hs Hi) as H.
  destruct (edit_post (1, Scenario.revised) Scenario.post_req Scenario.as_admin)
    as [resp st'].
  destruct H as (Hr & Hp & _). split; assumption.
Defined.

(** * Further results on the views *)

(** ** The three outcomes of the guard, as cases *)

Section GuardCases.
Context `{E : Externals}.

Lemma guard_cases {A : Type} (func : View A) (args : A) (req : Request) (st : St) :
  (current_user st = None /\
   login_required (admin_only func) args req st = (abort 401, st))
  \/ (exists u, current_user st = Some u /\ User.id u <> 1 /\
        login_required (admin_only func) args req st = (abort 403, st))
  \/ (exists u, current_user st = Some u /\ User.id u = 1 /\
        login_required (admin_only func) args req st = func args req st).
Proof.
  pose proof (guard_spec func args req st) as Hg. unfold guard_outcome in Hg.
  destruct (current_user st) as [u|]; [|left; auto].
  right. destruct (Z.eqb_spec (User.id u) 1); [right | left]; eauto.
Qed.

End GuardCases.

(** Case analysis on the guard of a decorated view in the goal. *)
Ltac guarded_view func args req st :=
  let u := fresh "u" in
  let Hcu := fresh "Hcu" in
  let Hid := fresh "Hid" in
  let Hg := fresh "Hg" in
  destruct (guard_cases func args req st)
    as [[Hcu Hg]|[(u & Hcu & Hid & Hg)|(u & Hcu & Hid & Hg)]];
  rewrite Hg; clear Hg.

(** Splits the tests a view makes until its outcome is a pair. *)
Ltac branches :=
  repeat match goal with
         | |- context [validate_on_submit ?req ?v] =>
             destruct (validate_on_submit req v) eqn:?
         | |- context [User_query_filter_by_email ?e ?s] =>
             destruct (User_query_filter_by_email e s) eqn:?
         | |- context [BlogPost_query_get ?k ?s] =>
             destruct (BlogPost_query_get k s) eqn:?
         | |- context [check_password_hash ?h ?p] =>
             destruct (check_password_hash h p) eqn:?
         | |- context [current_user ?st] =>
             destruct (current_user st) eqn:?
         | |- context [columns_fit ?vs] =>
             destruct (columns_fit vs) eqn:?
         | |- context [BlogPost_eqb ?p ?q] =>
             destruct (BlogPost_eqb p q) eqn:?
         end.

Section ReadOnly.
Context `{E : Externals}.

(** X1.  A GET request changes the store on one route only, [/delete]:
    on every other route the store after the request is the store
    before it. *)
Theorem get_never_writes (r : Route) (req : Request) (st : St) :
  method req = GET ->
  is_delete r = false ->
  db (snd (dispatch r req st)) = db st.
Proof.
  intros Hm Hr. unfold dispatch. rewrite Hm. simpl.
  destruct r as [ |form|form| |post_id form|form|post_id form|post_id| | ];
    try discriminate Hr; try reflexivity.
  - unfold register, validate_on_submit. rewrite Hm. reflexivity.
  - unfold login, validate_on_submit. rewrite Hm. reflexivity.
  - unfold show_post, validate_on_submit. rewrite Hm. reflexivity.
  - unfold add_new_post. guarded_view add_new_post_func form req st; try reflexivity.
    unfold add_new_post_func, validate_on_submit. rewrite Hm. reflexivity.
  - unfold edit_post. guarded_view edit_post_func (post_id, form) req st; try reflexivity.
    unfold edit_post_func, validate_on_submit. rewrite Hm. view.
    destruct (BlogPost_query_get post_id (db st)); reflexivity.
Qed.

(** X2.  The posts table is written by user 1 only: a request served on
    a session that is not the one of user 1 (anonymous, or another user)
    leaves every post as it was, on every route and with any form. *)
Theorem only_admin_writes_posts (r : Route) (req : Request) (st : St) :
  is_admin st = false ->
  blog_posts (db (snd (dispatch r req st))) = blog_posts (db st).
Proof.
  unfold is_admin. intros Hadmin. unfold dispatch.
  destruct (is_POST (method req) && negb (allows_POST r)); [reflexivity|].
  destruct r as [ |form|form| |post_id form|form|post_id form|post_id| | ];
    try reflexivity.
  - unfold register. view. branches; reflexivity.
  - unfold login. view. branches; reflexivity.
  - unfold show_post. view. branches; reflexivity.
  - unfold add_new_post. guarded_view add_new_post_func form req st; try reflexivity.
    rewrite Hcu in Hadmin. apply Z.eqb_neq in Hadmin. contradiction.
  - unfold edit_post. guarded_view edit_post_func (post_id, form) req st; try reflexivity.
    rewrite Hcu in Hadmin. apply Z.eqb_neq in Hadmin. contradiction.
  - unfold delete_post. guarded_view delete_post_func post_id req st; try reflexivity.
    rewrite Hcu in Hadmin. apply Z.eqb_neq in Hadmin. contradiction.
Qed.

(** X3.  A request of an anonymous browser writes neither posts nor
    comments; the only row it can add is a user, through [/register]. *)
Theorem anonymous_writes_no_content (r : Route) (req : Request) (st : St) :
  current_user st = None ->
  blog_posts (db (snd (dispatch r req st))) = blog_posts (db st) /\
  comments (db (snd (dispatch r req st))) = comments (db st) /\
  (users (db (snd (dispatch r req st))) = users (db st)
   \/ exists form, r = route_register form).
Proof.
  intros Hanon. unfold dispatch.
  destruct (is_POST (method req) && negb (allows_POST r)); [simpl; auto|].
  destruct r as [ |form|form| |post_id form|form|post_id form|post_id| | ];
    try (simpl; auto; fail).
  - unfold register. view. branches; simpl; eauto.
  - unfold login. view. branches; simpl; auto.
  - unfold show_post. destruct (validate_on_submit req _); view;
      rewrite ?Hanon; simpl; auto.
  - unfold add_new_post. guarded_view add_new_post_func form req st; simpl; auto; congruence.
  - unfold edit_post. guarded_view edit_post_func (post_id, form) req st; simpl; auto; congruence.
  - unfold delete_post. guarded_view delete_post_func post_id req st; simpl; auto; congruence.
Qed.

End ReadOnly.

(** ** What no request removes *)

Lemma extends_refl {A : Type} (l : list A) : extends l l.
Proof. exists []. symmetry. apply app_nil_r. Qed.

Lemma extends_trans {A : Type} (l1 l2 l3 : list A) :
  extends l1 l2 -> extends l2 l3 -> extends l1 l3.
Proof.
  intros [m1 H1] [m2 H2]. exists (m1 ++ m2)%list.
  rewrite H2, H1. symmetry. apply app_assoc.
Qed.

Lemma detach_keeps_core (post : BlogPost.t) (c : Comment.t) :
  comment_core (detach_comment post c) = comment_core c.
Proof.
  unfold detach_comment, comment_core.
  destruct (Comment.post_id c) as [pid|]; [|reflexivity].
  destruct (pid =? BlogPost.id post); reflexivity.
Qed.

Lemma effect_users_extend s s' : Effect s s' -> extends (users s) (users s').
Proof.
  intros Heff. destruct Heff; simpl; try apply extends_refl.
  eexists. reflexivity.
Qed.

Lemma extends_unordered_refl {A : Type} (l : list A) : extends_unordered l l.
Proof. exists []. rewrite app_nil_r. apply Permutation_refl. Qed.

Lemma extends_unordered_trans {A : Type} (l1 l2 l3 : list A) :
  extends_unordered l1 l2 -> extends_unordered l2 l3 -> extends_unordered l1 l3.
Proof.
  intros [m1 H1] [m2 H2]. exists (m1 ++ m2)%list.
  rewrite app_assoc.
  apply (Permutation_trans H2). apply Permutation_app_tail. exact H1.
Qed.

Lemma effect_comments_extend s s' :
  Effect s s' ->
  extends_unordered (map comment_core (comments s)) (map comment_core (comments s')).
Proof.
  intros Heff. destruct Heff; simpl; try apply extends_unordered_refl.
  - rewrite map_app. eexists. apply Permutation_refl.
  - exists []. rewrite app_nil_r.
    apply moved_permutation. apply detach_keeps_core.
Qed.

Section Kept.
Context `{E : Externals}.

Lemma run_extends {A : Type} (f : Store -> list A) :
  (forall s s', Effect s s' -> extends (f s) (f s')) ->
  forall trace w, extends (f (store w)) (f (store (run w trace))).
Proof.
  intros Hstep trace.
  induction trace as [|[[b r] req] rest IH]; intros w; simpl.
  - apply extends_refl.
  - apply (extends_trans _ (f (store (snd (browse w b r req))))).
    + apply Hstep. apply browse_effect.
    + apply IH.
Qed.

(** X4.  No sequence of requests removes, reorders or rewrites a user:
    the users table after the trace is the users table before it with
    the newly registered users appended. *)
Theorem users_never_removed (trace : list (nat * Route * Request)) (w : World) :
  extends (users (store w)) (users (store (run w trace))).
Proof.
  revert w. apply (run_extends users). exact effect_users_extend.
Qed.

Lemma run_extends_unordered {A : Type} (f : Store -> list A) :
  (forall s s', Effect s s' -> extends_unordered (f s) (f s')) ->
  forall trace w, extends_unordered (f (store w)) (f (store (run w trace))).
Proof.
  intros Hstep trace.
  induction trace as [|[[b r] req] rest IH]; intros w; simpl.
  - apply extends_unordered_refl.
  - apply (extends_unordered_trans _ (f (store (snd (browse w b r req))))).
    + apply Hstep. apply browse_effect.
    + apply IH.
Qed.

(** X5.  No sequence of requests removes a comment or changes its id, its
    text or its author: these columns of the comments table after the
    trace are those before it together with those of the new comments,
    in some order (a delete moves the comments it detaches). *)
Theorem comments_never_removed (trace : list (nat * Route * Request)) (w : World) :
  extends_unordered (map comment_core (comments (store w)))
                    (map comment_core (comments (store (run w trace)))).
Proof.
  revert w. apply (run_extends_unordered (fun s => map comment_core (comments s))).
  exact effect_comments_extend.
Qed.

End Kept.

(** ** Primary keys *)

Lemma keys_below_snoc (ids : list Z) (seq : Z) :
  1 <= seq -> keys_below ids seq -> keys_below (ids ++ [seq]) (seq + 1).
Proof.
  intros Hseq [Hnodup Hbound]. split.
  - apply NoDup_snoc; [exact Hnodup|].
    intros Hin. apply Hbound in Hin. lia.
  - intros k Hk. apply in_app_or in Hk. destruct Hk as [Hk|[Hk|[]]].
    + apply Hbound in Hk. lia.
    + lia.
Qed.

Lemma keys_below_positive (ids : list Z) (seq : Z) (k : Z) :
  keys_below ids seq -> In k ids -> 1 <= seq.
Proof. intros [_ Hbound] Hk. apply Hbound in Hk. lia. Qed.

Lemma NoDup_map_filter {A B : Type} (f : A -> B) (g : A -> bool) (l : list A) :
  NoDup (map f l) -> NoDup (map f (filter g l)).
Proof.
  induction l as [|a l IH]; simpl; intros Hnd; [constructor|].
  inversion Hnd as [|x xs Hnotin Hrest]; subst.
  destruct (g a); simpl; [|apply IH; exact Hrest].
  constructor; [|apply IH; exact Hrest].
  intros Hin. apply Hnotin.
  apply in_map_iff in Hin. destruct Hin as (y & Hy & Hin).
  apply filter_In in Hin. destruct Hin as [Hin _].
  apply in_map_iff. exists y. split; assumption.
Qed.

Lemma keys_below_filter {A : Type} (f : A -> Z) (g : A -> bool) (l : list A) (seq : Z) :
  keys_below (map f l) seq -> keys_below (map f (filter g l)) seq.
Proof.
  intros [Hnodup Hbound]. split.
  - apply NoDup_map_filter. exact Hnodup.
  - intros k Hk. apply Hbound.
    apply in_map_iff in Hk. destruct Hk as (y & Hy & Hin).
    apply filter_In in Hin. destruct Hin as [Hin _].
    apply in_map_iff. exists y. split; assumption.
Qed.

Lemma detach_keeps_id (post : BlogPost.t) (c : Comment.t) :
  Comment.id (detach_comment post c) = Comment.id c.
Proof.
  unfold detach_comment.
  destruct (Comment.post_id c) as [pid|]; [|reflexivity].
  destruct (pid =? BlogPost.id post); reflexivity.
Qed.

Lemma keys_below_permutation (ids' ids : list Z) (seq : Z) :
  Permutation ids' ids -> keys_below ids seq -> keys_below ids' seq.
Proof.
  intros Hperm [Hnodup Hbound]. split.
  - apply (Permutation_NoDup (Permutation_sym Hperm)). exact Hnodup.
  - intros k Hk. apply Hbound. apply (Permutation_in _ Hperm). exact Hk.
Qed.

Lemma effect_sequences_started s s' :
  Effect s s' -> sequences_started s -> sequences_started s'.
Proof.
  unfold sequences_started. intros Heff Hs.
  destruct Heff; simpl; lia.
Qed.

Lemma effect_keys_fresh s s' :
  Effect s s' ->
  sequences_started s /\ keys_fresh s ->
  sequences_started s' /\ keys_fresh s'.
Proof.
  intros Heff [Hseq Hkeys].
  split; [apply (effect_sequences_started s); assumption|].
  destruct Hseq as (Hu & Hp & Hc). destruct Hkeys as (Ku & Kp & Kc).
  unfold keys_fresh.
  destruct Heff as [ | n e pw Hq
                     | ttl sub bd img author dt Hauthor
                     | txt author parent Hauthor Hparent
                     | post ttl sub img author bd Hpost Hauthor
                     | post Hpost ]; simpl.
  - auto.
  - rewrite map_app. simpl. auto using keys_below_snoc.
  - rewrite map_app. simpl. auto using keys_below_snoc.
  - rewrite map_app. simpl. auto using keys_below_snoc.
  - split; [exact Ku|]. split; [|exact Kc].
    apply (keys_below_permutation _ (map BlogPost.id (blog_posts s))); [|exact Kp].
    apply moved_permutation. reflexivity.
  - split; [exact Ku|]. split.
    + apply keys_below_filter. exact Kp.
    + apply (keys_below_permutation _ (map Comment.id (comments s))); [|exact Kc].
      apply moved_permutation. apply detach_keeps_id.
Qed.

Lemma find_by_key (l : list User.t) (u : User.t) :
  NoDup (map User.id l) -> In u l ->
  find (fun v => User.id v =? User.id u) l = Some u.
Proof.
  induction l as [|a l IH]; simpl; intros Hnd Hin; [contradiction|].
  inversion Hnd as [|x xs Hnotin Hrest]; subst.
  destruct Hin as [Heq|Hin].
  - subst a. rewrite Z.eqb_refl. reflexivity.
  - destruct (Z.eqb_spec (User.id a) (User.id u)) as [Hsame|_].
    + exfalso. apply Hnotin. rewrite Hsame. apply in_map. exact Hin.
    + apply IH; assumption.
Qed.

Lemma find_snoc_new {A : Type} (f : A -> bool) (l : list A) (x : A) :
  find f l = None -> f x = true -> find f (l ++ [x]) = Some x.
Proof.
  intros Hnone Hx. induction l as [|a l IH]; simpl in *.
  - rewrite Hx. reflexivity.
  - destruct (f a); [discriminate | apply IH; exact Hnone].
Qed.

Lemma find_extends {A : Type} (f : A -> bool) (l more : list A) (x : A) :
  find f l = Some x -> find f (l ++ more) = Some x.
Proof.
  intros Hfind. induction l as [|a l IH]; simpl in *; [discriminate|].
  destruct (f a); [exact Hfind | apply IH; exact Hfind].
Qed.

Section Keys.
Context `{E : Externals}.

Lemma reachable_keys (trace : list (nat * Route * Request)) :
  sequences_started (store (run boot trace)) /\ keys_fresh (store (run boot trace)).
Proof.
  apply (run_preserves (fun s => sequences_started s /\ keys_fresh s)).
  - exact effect_keys_fresh.
  - simpl. unfold sequences_started, keys_fresh, keys_below. simpl.
    repeat split; try lia; try constructor; contradiction.
Qed.

(** X6.  After any sequence of requests on a fresh database the keys of
    each table are pairwise distinct, positive and below the next key of
    the table's sequence: no insert, edit or delete ever makes two rows
    share an id. *)
Theorem keys_stay_fresh (trace : list (nat * Route * Request)) :
  keys_fresh (store (run boot trace)) /\
  forall post_id p q,
    BlogPost_query_get post_id (store (run boot trace)) = Some p ->
    In q (blog_posts (store (run boot trace))) ->
    BlogPost.id q = post_id -> q = p.
Proof.
  destruct (reachable_keys trace) as [_ Hkeys]. split; [exact Hkeys|].
  destruct Hkeys as (_ & [Hnodup _] & _).
  intros post_id p q Hget Hq Hid.
  unfold BlogPost_query_get in Hget.
  induction (blog_posts (store (run boot trace))) as [|a l IH];
    simpl in *; [contradiction|].
  inversion Hnodup as [|x xs Hnotin Hrest]; subst.
  destruct (Z.eqb_spec (BlogPost.id a) (BlogPost.id q)) as [Hsame|Hdiff].
  - injection Hget as <-. destruct Hq as [Heq|Hq]; [symmetry; exact Heq|].
    exfalso. apply Hnotin. rewrite Hsame. apply in_map. exact Hq.
  - destruct Hq as [Heq|Hq]; [subst a; contradiction|].
    apply IH; assumption.
Qed.

(** X7.  On a fresh database that has served any sequence of requests, a
    successful login makes [current_user] that very user: the user found
    by email, whose stored hash verified, is the one the loader returns
    for the new session. *)
Theorem login_resolves_user
        (trace : list (nat * Route * Request)) (b : nat)
        (form : LoginForm.t) (req : Request) (user : User.t) :
  method req = POST ->
  LoginForm_validate form = true ->
  User_query_filter_by_email (LoginForm.email form) (store (run boot trace))
    = Some user ->
  check_password_hash (User.password user) (LoginForm.password form) = true ->
  let (resp, w') := browse (run boot trace) b (route_login form) req in
  resp = redirect (url_for "get_all_posts" []) /\
  store w' = store (run boot trace) /\
  current_user (at_browser w' b) = Some user.
Proof.
  intros Hm Hv Hq Hcheck.
  destruct (reachable_keys trace) as [_ ([Hnodup _] & _)].
  unfold browse, dispatch. rewrite Hm. simpl.
  unfold login, form_data, validate_on_submit. rewrite Hm. simpl. rewrite Hv.
  view. rewrite Hq, Hcheck. simpl.
  repeat split.
  unfold current_user, at_browser. simpl. rewrite Nat.eqb_refl. simpl.
  unfold load_user, User_query_filter_by_id.
  apply find_by_key; [exact Hnodup|].
  unfold User_query_filter_by_email in Hq. apply find_in in Hq. exact Hq.
Qed.

End Keys.

(** ** Who the administrator is *)

Lemma effect_first_user s s' :
  Effect s s' -> first_user_has_key_1 s -> first_user_has_key_1 s'.
Proof.
  unfold first_user_has_key_1. intros Heff Hs.
  destruct Heff as [|n e pw Hq| | | |]; simpl; try exact Hs.
  destruct (users s) as [|u rest]; simpl; [exact Hs | exact Hs].
Qed.

Section Administrator.
Context `{E : Externals}.

Lemma run_preserves_dispatch (P : Store -> Prop) :
  (forall r req st, P (db st) -> P (db (snd (dispatch r req st)))) ->
  forall trace w, P (store w) -> P (store (run w trace)).
Proof.
  intros Hstep trace.
  induction trace as [|[[b r] req] rest IH]; intros w Hw; simpl; [exact Hw|].
  apply IH. unfold browse.
  pose proof (Hstep r req (at_browser w b) Hw) as H.
  destruct (dispatch r req (at_browser w b)) as [resp st']. exact H.
Qed.

Lemma dispatch_posts_by_admin r req st :
  posts_by_admin (db st) -> posts_by_admin (db (snd (dispatch r req st))).
Proof.
  unfold posts_by_admin. intros Hs. unfold dispatch.
  destruct (is_POST (method req) && negb (allows_POST r)); [exact Hs|].
  destruct r as [ |form|form| |post_id form|form|post_id form|post_id| | ];
    try exact Hs.
  - unfold register. view. branches; exact Hs.
  - unfold login. view. branches; exact Hs.
  - unfold show_post. view. branches; exact Hs.
  - unfold add_new_post. guarded_view add_new_post_func form req st; try exact Hs.
    unfold add_new_post_func.
    destruct (validate_on_submit req _); view; [|exact Hs].
    rewrite Hcu. simpl. destruct (columns_fit _); simpl; [|exact Hs].
    intros p Hp. apply in_app_or in Hp.
    destruct Hp as [Hp|[Hp|[]]]; [apply Hs; exact Hp|].
    subst p. simpl. rewrite Hid. reflexivity.
  - unfold edit_post. guarded_view edit_post_func (post_id, form) req st; try exact Hs.
    unfold edit_post_func. view.
    destruct (BlogPost_query_get post_id (db st)) as [post|]; [|exact Hs].
    destruct (validate_on_submit req _); view; [|exact Hs].
    rewrite Hcu. simpl.
    destruct (BlogPost_eqb _ post); simpl; [exact Hs|].
    destruct (columns_fit _); simpl; [|exact Hs].
    intros p Hp.
    apply in_moved, in_map_iff in Hp. destruct Hp as (q & Hq & Hin).
    destruct (has_key post q); subst p.
    + simpl. rewrite Hid. reflexivity.
    + apply Hs. exact Hin.
  - unfold delete_post. guarded_view delete_post_func post_id req st; try exact Hs.
    unfold delete_post_func. view.
    destruct (BlogPost_query_get post_id (db st)) as [post|]; [|exact Hs].
    simpl. intros p Hp. apply filter_In in Hp. apply Hs. tauto.
Qed.

(** X8.  On a fresh database, whatever requests are served, every stored
    post has user 1 as its author: posts are created and edited behind
    the guard only, and both views write the logged-in user. *)
Theorem every_post_by_admin (trace : list (nat * Route * Request)) :
  posts_by_admin (store (run boot trace)).
Proof.
  apply (run_preserves_dispatch posts_by_admin dispatch_posts_by_admin).
  intros p [].
Qed.

(** X9.  On a fresh database, whatever requests are served, the user the
    guard lets through is the one who registered first: if any user is
    stored, the first row of the users table has id 1 and is the user
    the loader returns for id 1. *)
Theorem first_registered_is_admin
        (trace : list (nat * Route * Request)) (u : User.t) (rest : list User.t) :
  users (store (run boot trace)) = u :: rest ->
  User.id u = 1 /\ load_user 1 (store (run boot trace)) = Some u.
Proof.
  intros Husers.
  assert (Hfirst : first_user_has_key_1 (store (run boot trace))).
  { apply (run_preserves first_user_has_key_1 effect_first_user). reflexivity. }
  unfold first_user_has_key_1 in Hfirst. rewrite Husers in Hfirst.
  split; [exact Hfirst|].
  unfold load_user, User_query_filter_by_id. rewrite Husers. simpl.
  rewrite Hfirst. reflexivity.
Qed.

End Administrator.

(** ** The administrator's writes *)

Section AdminWrites.
Context `{E : Externals}.

(** X10.  A valid submission of the new-post form by user 1, with a
    title, a subtitle, an image URL and a date of at most 250 characters
    each, appends one post, with the next key, the submitted fields, the
    date of the day and user 1 as author, and redirects to the post list;
    the post list rendered next shows the old posts followed by the new
    one. *)
Theorem new_post_submission
        (form : CreatePostForm.t) (req req' : Request) (st : St) (admin : User.t) :
  method req = POST ->
  CreatePostForm_validate form = true ->
  current_user st = Some admin ->
  User.id admin = 1 ->
  (String.length (CreatePostForm.title form) <= 250)%nat ->
  (String.length (CreatePostForm.subtitle form) <= 250)%nat ->
  (String.length (CreatePostForm.img_url form) <= 250)%nat ->
  (String.length (today req) <= 250)%nat ->
  let (resp, st') := add_new_post form req st in
  let row := {| BlogPost.id := blog_posts_seq (db st);
                BlogPost.title := CreatePostForm.title form;
                BlogPost.subtitle := CreatePostForm.subtitle form;
                BlogPost.date := today req;
                BlogPost.body := CreatePostForm.body form;
                BlogPost.img_url := CreatePostForm.img_url form;
                BlogPost.author_id := Some 1 |} in
  resp = redirect (url_for "get_all_posts" []) /\
  blog_posts_seq (db st') = blog_posts_seq (db st) + 1 /\
  users (db st') = users (db st) /\
  comments (db st') = comments (db st) /\
  session st' = session st /\
  fst (get_all_posts tt req' st') =
    render_template "index.html"
      [("all_posts", VPosts (blog_posts (db st) ++ [row]));
       ("current_year", VStr CURRENT_YEAR_FOR_FOOTER)].
Proof.
  intros Hm Hv Hcu Hadmin Ht Hs Hi Hd.
  assert (Hfit : columns_fit [CreatePostForm.title form;
                              CreatePostForm.subtitle form;
                              today req;
                              CreatePostForm.img_url form] = true).
  { apply columns_fit_iff. intros v [<-|[<-|[<-|[<-|[]]]]]; assumption. }
  unfold add_new_post. guarded_view add_new_post_func form req st; try congruence.
  unfold add_new_post_func, form_data, validate_on_submit.
  rewrite Hm. simpl. rewrite Hv. view. rewrite Hcu. simpl. rewrite Hfit. simpl.
  unfold new_BlogPost, BlogPost_query_all. simpl. rewrite Hadmin.
  repeat split; reflexivity.
Qed.

(** X11.  A delete request of user 1 for a stored post: no post with that
    id is left, every other id reads as before, no comment points to the
    id any more while the comments table holds the same ids, texts and
    authors as before (in some order: the detached comments move), users
    and session are untouched, and the browser is sent to the post
    list. *)
Theorem delete_submission
        (post_id : Z) (req : Request) (st : St) (admin : User.t) (post : BlogPost.t) :
  current_user st = Some admin ->
  User.id admin = 1 ->
  BlogPost_query_get post_id (db st) = Some post ->
  let (resp, st') := delete_post post_id req st in
  resp = redirect (url_for "get_all_posts" []) /\
  post_absent post_id (db st') /\
  (forall q, q <> post_id ->
             BlogPost_query_get q (db st') = BlogPost_query_get q (db st)) /\
  (forall c, In c (comments (db st')) -> Comment.post_id c <> Some post_id) /\
  Permutation (map comment_core (comments (db st')))
              (map comment_core (comments (db st))) /\
  users (db st') = users (db st) /\
  session st' = session st.
Proof.
  intros Hcu Hadmin Hget.
  pose proof (query_get_id _ _ _ Hget) as Hid.
  unfold delete_post. guarded_view delete_post_func post_id req st; try congruence.
  unfold delete_post_func. view. rewrite Hget. simpl. subst post_id.
  split; [reflexivity|]. split; [|split; [|split; [|split]]].
  - apply post_absent_query. unfold BlogPost_query_filter_by_id. simpl.
    apply find_filter_out.
  - intros q Hq. unfold BlogPost_query_get. simpl.
    apply find_filter_other. exact Hq.
  - intros c Hc. simpl in Hc. apply in_detached, in_map_iff in Hc.
    destruct Hc as (c0 & Hc0 & _).
    subst c. unfold detach_comment.
    destruct (Comment.post_id c0) as [pid|] eqn:Hpid; [|congruence].
    destruct (Z.eqb_spec pid (BlogPost.id post)); simpl; congruence.
  - simpl. apply moved_permutation. apply detach_keeps_core.
  - split; reflexivity.
Qed.

(** X12.  The edit and delete views make no check that the post exists:
    for user 1 and an id that no stored post has, the edit page raises on
    [post.title] (for GET and POST alike) and the delete raises on
    [db.session.delete(None)]; store and session are left as they
    were. *)
Theorem missing_post_raises
        (post_id : Z) (form : CreatePostForm.t) (req : Request) (st : St)
        (admin : User.t) :
  current_user st = Some admin ->
  User.id admin = 1 ->
  post_absent post_id (db st) ->
  edit_post (post_id, form) req st = (unhandled "AttributeError", st) /\
  delete_post post_id req st = (unhandled "UnmappedInstanceError", st).
Proof.
  intros Hcu Hadmin Habs. apply post_absent_query in Habs.
  unfold BlogPost_query_filter_by_id in Habs.
  split.
  - unfold edit_post. guarded_view edit_post_func (post_id, form) req st; try congruence.
    unfold edit_post_func, BlogPost_query_get. view. rewrite Habs. reflexivity.
  - unfold delete_post. guarded_view delete_post_func post_id req st; try congruence.
    unfold delete_post_func, BlogPost_query_get. view. rewrite Habs. reflexivity.
Qed.

(** X13.  Logout keeps the store, empties the identity of the session and
    redirects to the post list; on the state it leaves, each of the three
    guarded views answers 401 to any request. *)
Theorem logout_closes_admin_routes (req req' : Request) (st : St) :
  let (resp, st') := logout tt req st in
  resp = redirect (url_for "get_all_posts" []) /\
  db st' = db st /\
  current_user st' = None /\
  (forall form, add_new_post form req' st' = (abort 401, st')) /\
  (forall post_id form, edit_post (post_id, form) req' st' = (abort 401, st')) /\
  (forall post_id, delete_post post_id req' st' = (abort 401, st')).
Proof.
  unfold logout. view.
  set (st' := {| db := db st;
                 session := {| session_user_id := None;
                               session_flashes := session_flashes (session st) |} |}).
  assert (Hcu : current_user st' = None) by reflexivity.
  split; [reflexivity|]. split; [reflexivity|]. split; [exact Hcu|].
  split; [|split].
  - intros form. unfold add_new_post.
    guarded_view add_new_post_func form req' st'; congruence.
  - intros post_id form. unfold edit_post.
    guarded_view edit_post_func (post_id, form) req' st'; congruence.
  - intros post_id. unfold delete_post.
    guarded_view delete_post_func post_id req' st'; congruence.
Qed.

End AdminWrites.

(** ** Comments, registration and the session *)

Lemma email_query_none (e : string) (s : Store) :
  ~ In e (map User.email (users s)) -> User_query_filter_by_email e s = None.
Proof.
  intros Hnotin.
  destruct (User_query_filter_by_email e s) as [u|] eqn:Hq; [|reflexivity].
  exfalso. apply Hnotin. unfold User_query_filter_by_email in Hq.
  apply find_some in Hq. destruct Hq as [Hin Heq].
  apply String.eqb_eq in Heq. rewrite <- Heq. apply in_map. exact Hin.
Qed.

Lemma key_query_none (l : list User.t) (seq : Z) :
  keys_below (map User.id l) seq ->
  find (fun u => User.id u =? seq) l = None.
Proof.
  intros [_ Hbound].
  destruct (find (fun u => User.id u =? seq) l) as [u|] eqn:Hfind; [|reflexivity].
  apply find_some in Hfind. destruct Hfind as [Hin Heq].
  apply Z.eqb_eq in Heq. apply (in_map User.id) in Hin.
  apply Hbound in Hin. lia.
Qed.

Section Sessions.
Context `{E : Externals}.

(** X14.  A valid comment submission by a logged-in user on a stored
    post appends one comment, with the next key, the submitted text, that
    post as parent and that user as author.  The page rendered in answer
    still carries the comment list read before the insert; the next GET
    of the page lists the new comment last. *)
Theorem comment_on_stored_post
        (post_id : Z) (form form' : CommentForm.t) (req req' : Request) (st : St)
        (user : User.t) (post : BlogPost.t) :
  method req = POST ->
  CommentForm_validate form = true ->
  current_user st = Some user ->
  BlogPost_query_filter_by_id post_id (db st) = Some post ->
  method req' = GET ->
  let (resp, st') := show_post (post_id, form) req st in
  let row := {| Comment.id := comments_seq (db st);
                Comment.text := CommentForm.comment_text form;
                Comment.post_id := Some post_id;
                Comment.author_id := Some (User.id user) |} in
  resp = render_template "post.html"
           [("post", VPost (Some post));
            ("form", VCommentForm form);
            ("all_comments", VComments (comments (db st)));
            ("current_year", VStr CURRENT_YEAR_FOR_FOOTER)] /\
  comments (db st') = (comments (db st) ++ [row])%list /\
  blog_posts (db st') = blog_posts (db st) /\
  users (db st') = users (db st) /\
  session st' = session st /\
  show_post (post_id, form') req' st' =
    (render_template "post.html"
       [("post", VPost (Some post));
        ("form", VCommentForm CommentForm.blank);
        ("all_comments", VComments (comments (db st) ++ [row]));
        ("current_year", VStr CURRENT_YEAR_FOR_FOOTER)],
     st').
Proof.
  intros Hm Hv Hcu Hpost Hm'.
  assert (Hid : BlogPost.id post = post_id).
  { unfold BlogPost_query_filter_by_id in Hpost. apply find_some in Hpost.
    apply Z.eqb_eq. tauto. }
  unfold show_post at 1. unfold form_data, validate_on_submit.
  rewrite Hm. simpl. rewrite Hv. view. rewrite Hpost, Hcu. simpl.
  unfold new_Comment, post_page. simpl. rewrite Hid.
  repeat split.
  unfold show_post, form_data, validate_on_submit. rewrite Hm'. simpl.
  view. unfold post_page, BlogPost_query_filter_by_id, Comment_query_all. simpl.
  unfold BlogPost_query_filter_by_id in Hpost. rewrite Hpost. reflexivity.
Qed.

(** X15.  On a fresh database that has served any requests, a valid
    registration with an email no stored user has, whose name, email and
    password hash have at most 250 characters each, appends one user,
    with the next key, the submitted name and email, and the hash of the
    submitted password as password; it logs the browser in as exactly
    that user and redirects to the post list. *)
Theorem registration_logs_in
        (trace : list (nat * Route * Request)) (b : nat)
        (form : RegisterForm.t) (req : Request) :
  method req = POST ->
  RegisterForm_validate form = true ->
  ~ In (RegisterForm.email form) (map User.email (users (store (run boot trace)))) ->
  (String.length (RegisterForm.name form) <= 250)%nat ->
  (String.length (RegisterForm.email form) <= 250)%nat ->
  (String.length (generate_password_hash (RegisterForm.password form) (salt req))
   <= 250)%nat ->
  let (resp, w') := browse (run boot trace) b (route_register form) req in
  let row := {| User.id := users_seq (store (run boot trace));
                User.name := RegisterForm.name form;
                User.email := RegisterForm.email form;
                User.password :=
                  generate_password_hash (RegisterForm.password form) (salt req) |} in
  resp = redirect (url_for "get_all_posts" []) /\
  users (store w') = (users (store (run boot trace)) ++ [row])%list /\
  blog_posts (store w') = blog_posts (store (run boot trace)) /\
  comments (store w') = comments (store (run boot trace)) /\
  current_user (at_browser w' b) = Some row.
Proof.
  intros Hm Hv Hnew Hn He Hh. apply email_query_none in Hnew.
  assert (Hfit : columns_fit
                   [RegisterForm.name form; RegisterForm.email form;
                    generate_password_hash (RegisterForm.password form) (salt req)]
                 = true).
  { apply columns_fit_iff. intros v [<-|[<-|[<-|[]]]]; assumption. }
  destruct (reachable_keys trace) as [_ (Hkeys & _)].
  apply key_query_none in Hkeys.
  unfold browse, dispatch. rewrite Hm. simpl.
  unfold register, form_data, validate_on_submit. rewrite Hm. simpl. rewrite Hv.
  view. rewrite Hnew. simpl. rewrite Hfit. simpl.
  repeat split.
  unfold current_user, at_browser. simpl. rewrite Nat.eqb_refl. simpl.
  unfold load_user, User_query_filter_by_id. simpl.
  apply find_snoc_new; [exact Hkeys|].
  simpl. apply Z.eqb_refl.
Qed.

(** X16.  Register, then log in: after a valid registration with a new
    email, whose name, email and password hash have at most 250
    characters each, and after any further requests from any browsers, a
    valid login from any browser with the registered email and password
    is accepted and opens a session for the registered user, provided the
    password verifies against the hash made of it at registration. *)
Theorem register_then_login
        (w : World) (b b' : nat) (form : RegisterForm.t) (req_r req_l : Request)
        (later : list (nat * Route * Request)) :
  let credentials :=
    LoginForm.mk (RegisterForm.email form) (RegisterForm.password form) in
  method req_r = POST ->
  RegisterForm_validate form = true ->
  ~ In (RegisterForm.email form) (map User.email (users (store w))) ->
  (String.length (RegisterForm.name form) <= 250)%nat ->
  (String.length (RegisterForm.email form) <= 250)%nat ->
  (String.length (generate_password_hash (RegisterForm.password form) (salt req_r))
   <= 250)%nat ->
  check_password_hash
    (generate_password_hash (RegisterForm.password form) (salt req_r))
    (RegisterForm.password form) = true ->
  method req_l = POST ->
  LoginForm_validate credentials = true ->
  let registered := snd (browse w b (route_register form) req_r) in
  let (resp, w') := browse (run registered later) b' (route_login credentials) req_l in
  resp = redirect (url_for "get_all_posts" []) /\
  session_user_id (cookies w' b') = Some (users_seq (store w)).
Proof.
  intros credentials Hm Hv Hnew Hn He Hh Hcheck Hm' Hv' registered.
  apply email_query_none in Hnew.
  assert (Hfit : columns_fit
                   [RegisterForm.name form; RegisterForm.email form;
                    generate_password_hash (RegisterForm.password form) (salt req_r)]
                 = true).
  { apply columns_fit_iff. intros v [<-|[<-|[<-|[]]]]; assumption. }
  set (row := new_User (RegisterForm.name form) (RegisterForm.email form)
                (generate_password_hash (RegisterForm.password form) (salt req_r))
                (store w)).
  assert (Hreg : users (store registered) = (users (store w) ++ [row])%list).
  { unfold registered, browse, dispatch. rewrite Hm. simpl.
    unfold register, form_data, validate_on_submit. rewrite Hm. simpl. rewrite Hv.
    view. rewrite Hnew. simpl. rewrite Hfit. reflexivity. }
  destruct (run_extends users effect_users_extend later registered) as [more Hmore].
  assert (Hfind : User_query_filter_by_email (RegisterForm.email form)
                    (store (run registered later)) = Some row).
  { unfold User_query_filter_by_email in *. rewrite Hmore, Hreg.
    apply find_extends. apply find_snoc_new; [exact Hnew|].
    simpl. apply String.eqb_refl. }
  unfold browse, dispatch. rewrite Hm'. simpl.
  unfold login, form_data, validate_on_submit. rewrite Hm'. simpl. rewrite Hv'.
  view. rewrite Hfind. simpl. rewrite Hcheck. simpl.
  rewrite Nat.eqb_refl. split; reflexivity.
Qed.

(** X17.  The identity of a session changes on three routes only,
    [/register], [/login] and [/logout]: every other request leaves the
    user id of the session as it was. *)
Theorem identity_kept (r : Route) (req : Request) (st : St) :
  sets_identity r = false ->
  session_user_id (session (snd (dispatch r req st))) = session_user_id (session st).
Proof.
  intros Hr. unfold dispatch.
  destruct (is_POST (method req) && negb (allows_POST r)); [reflexivity|].
  destruct r as [ |form|form| |post_id form|form|post_id form|post_id| | ];
    try discriminate Hr; try reflexivity.
  - unfold show_post. view. branches; reflexivity.
  - unfold add_new_post. guarded_view add_new_post_func form req st; try reflexivity.
    unfold add_new_post_func. view. branches; reflexivity.
  - unfold edit_post. guarded_view edit_post_func (post_id, form) req st; try reflexivity.
    unfold edit_post_func. view. branches; reflexivity.
  - unfold delete_post. guarded_view delete_post_func post_id req st; try reflexivity.
    unfold delete_post_func. view. branches; reflexivity.
Qed.

End Sessions.

(** ** The further results at work on the scenario *)

Lemma get_never_writes_witness :
  method Scenario.get_req = GET /\
  is_delete (route_show_post 1 Scenario.nice) = false /\
  db (snd (dispatch (route_show_post 1 Scenario.nice) Scenario.get_req Scenario.as_alice))
  = db Scenario.as_alice.
Proof.
  split; [reflexivity|]. split; [reflexivity|].
  exact (@get_never_writes double (route_show_post 1 Scenario.nice)
           Scenario.get_req Scenario.as_alice eq_refl eq_refl).
Defined.

Lemma only_admin_writes_posts_witness :
  is_admin Scenario.as_alice = false /\
  blog_posts (db (snd (dispatch (route_add_new_post Scenario.hello)
                                Scenario.post_req Scenario.as_alice)))
  = blog_posts (db Scenario.as_alice).
Proof.
  split; [reflexivity|].
  exact (@only_admin_writes_posts double (route_add_new_post Scenario.hello)
           Scenario.post_req Scenario.as_alice eq_refl).
Defined.

Lemma anonymous_writes_no_content_witness :
  current_user Scenario.as_visitor = None /\
  comments (db (snd (dispatch (route_show_post 1 Scenario.nice)
                              Scenario.post_req Scenario.as_visitor)))
  = comments (db Scenario.as_visitor).
Proof.
  split; [reflexivity|].
  exact (proj1 (proj2 (@anonymous_writes_no_content double
                         (route_show_post 1 Scenario.nice)
                         Scenario.post_req Scenario.as_visitor eq_refl))).
Defined.

Lemma login_resolves_user_witness :
  method Scenario.post_req = POST /\
  LoginForm_validate Scenario.alice_login = true /\
  User_query_filter_by_email (LoginForm.email Scenario.alice_login)
    (store (run boot Scenario.trace)) = Some Scenario.alice /\
  check_password_hash (User.password Scenario.alice)
    (LoginForm.password Scenario.alice_login) = true /\
  current_user
    (at_browser (snd (browse (run boot Scenario.trace) 2
                             (route_login Scenario.alice_login) Scenario.post_req)) 2)
  = Some Scenario.alice.
Proof.
  do 4 (split; [reflexivity|]).
  pose proof (@login_resolves_user double Scenario.trace 2%nat Scenario.alice_login
                Scenario.post_req Scenario.alice eq_refl eq_refl eq_refl eq_refl) as H.
  destruct (browse (run boot Scenario.trace) 2
                   (route_login Scenario.alice_login) Scenario.post_req)
    as [resp w'].
  destruct H as (_ & _ & H). exact H.
Defined.

Lemma first_registered_is_admin_witness :
  users (store (run boot Scenario.trace)) = [Scenario.root; Scenario.alice] /\
  User.id Scenario.root = 1 /\
  load_user 1 (store (run boot Scenario.trace)) = Some Scenario.root.
Proof.
  split; [reflexivity|].
  exact (@first_registered_is_admin double Scenario.trace Scenario.root
           [Scenario.alice] eq_refl).
Defined.

Lemma new_post_submission_witness :
  method Scenario.post_req = POST /\
  CreatePostForm_validate Scenario.revised = true /\
  current_user Scenario.as_admin = Some Scenario.root /\
  User.id Scenario.root = 1 /\
  (String.length (CreatePostForm.title Scenario.revised) <= 250)%nat /\
  (String.length (CreatePostForm.subtitle Scenario.revised) <= 250)%nat /\
  (String.length (CreatePostForm.img_url Scenario.revised) <= 250)%nat /\
  (String.length (today Scenario.post_req) <= 250)%nat /\
  let (resp, st') := add_new_post Scenario.revised Scenario.post_req Scenario.as_admin in
  resp = redirect (url_for "get_all_posts" []) /\
  blog_posts_seq (db st') = 3.
Proof.
  assert (Ht : (String.length (CreatePostForm.title Scenario.revised) <= 250)%nat)
    by (apply Nat.leb_le; reflexivity).
  assert (Hs : (String.length (CreatePostForm.subtitle Scenario.revised) <= 250)%nat)
    by (apply Nat.leb_le; reflexivity).
  assert (Hi : (String.length (CreatePostForm.img_url Scenario.revised) <= 250)%nat)
    by (apply Nat.leb_le; reflexivity).
  assert (Hd : (String.length (today Scenario.post_req) <= 250)%nat)
    by (apply Nat.leb_le; reflexivity).
  do 4 (split; [reflexivity|]).
  split; [exact Ht|]. split; [exact Hs|]. split; [exact Hi|]. split; [exact Hd|].
  pose proof (@new_post_submission double Scenario.revised Scenario.post_req
                Scenario.get_req Scenario.as_admin Scenario.root
                eq_refl eq_refl eq_refl eq_refl Ht Hs Hi Hd) as H.
  destruct (add_new_post Scenario.revised Scenario.post_req Scenario.as_admin)
    as [resp st'].
  destruct H as (Hr & Hseq & _). split; [exact Hr | exact Hseq].
Defined.

Lemma delete_submission_witness :
  current_user Scenario.as_admin = Some Scenario.root /\
  User.id Scenario.root = 1 /\
  BlogPost_query_get 1 (db Scenario.as_admin) = Some Scenario.first_post /\
  let (resp, st') := delete_post 1 Scenario.get_req Scenario.as_admin in
  resp = redirect (url_for "get_all_posts" []) /\
  post_absent 1 (db st').
Proof.
  do 3 (split; [reflexivity|]).
  pose proof (delete_submission 1 Scenario.get_req Scenario.as_admin
                Scenario.root Scenario.first_post eq_refl eq_refl eq_refl) as H.
  destruct (delete_post 1 Scenario.get_req Scenario.as_admin) as [resp st'].
  destruct H as (Hr & Habs & _). split; [exact Hr | exact Habs].
Defined.

Lemma missing_post_raises_witness :
  current_user Scenario.as_admin = Some Scenario.root /\
  User.id Scenario.root = 1 /\
  post_absent 7 (db Scenario.as_admin) /\
  edit_post (7, Scenario.revised) Scenario.get_req Scenario.as_admin
  = (unhandled "AttributeError", Scenario.as_admin) /\
  delete_post 7 Scenario.get_req Scenario.as_admin
  = (unhandled "UnmappedInstanceError", Scenario.as_admin).
Proof.
  assert (Habs : post_absent 7 (db Scenario.as_admin))
    by (apply post_absent_query; reflexivity).
  split; [reflexivity|]. split; [reflexivity|]. split; [exact Habs|].
  exact (@missing_post_raises double 7 Scenario.revised Scenario.get_req
           Scenario.as_admin Scenario.root eq_refl eq_refl Habs).
Defined.

Lemma comment_on_stored_post_witness :
  method Scenario.post_req = POST /\
  CommentForm_validate Scenario.nice = true /\
  current_user Scenario.as_alice = Some Scenario.alice /\
  BlogPost_query_filter_by_id 1 (db Scenario.as_alice) = Some Scenario.first_post /\
  method Scenario.get_req = GET /\
  let (resp, st') := show_post (1, Scenario.nice) Scenario.post_req Scenario.as_alice in
  comments (db st') =
    [ Comment.mk 1 "<p>nice</p>" (Some 1) (Some 2);
      Comment.mk 2 "<p>nice</p>" (Some 1) (Some 2) ].
Proof.
  do 5 (split; [reflexivity|]).
  pose proof (@comment_on_stored_post double 1 Scenario.nice CommentForm.blank
                Scenario.post_req Scenario.get_req Scenario.as_alice
                Scenario.alice Scenario.first_post
                eq_refl eq_refl eq_refl eq_refl eq_refl) as H.
  destruct (show_post (1, Scenario.nice) Scenario.post_req Scenario.as_alice)
    as [resp st'].
  destruct H as (_ & Hc & _). exact Hc.
Defined.

Lemma bob_is_new :
  ~ In (RegisterForm.email Tour.bob_form)
       (map User.email (users (store (run boot Scenario.trace)))).
Proof.
  vm_compute. intros [H|[H|[]]]; discriminate H.
Defined.

Lemma bob_fits :
  (String.length (RegisterForm.name Tour.bob_form) <= 250)%nat /\
  (String.length (RegisterForm.email Tour.bob_form) <= 250)%nat /\
  (String.length (generate_password_hash (RegisterForm.password Tour.bob_form)
                                         (salt Scenario.post_req)) <= 250)%nat.
Proof.
  repeat split; apply Nat.leb_le; reflexivity.
Defined.

Lemma registration_logs_in_witness :
  method Scenario.post_req = POST /\
  RegisterForm_validate Tour.bob_form = true /\
  ~ In (RegisterForm.email Tour.bob_form)
       (map User.email (users (store (run boot Scenario.trace)))) /\
  (String.length (RegisterForm.name Tour.bob_form) <= 250)%nat /\
  (String.length (RegisterForm.email Tour.bob_form) <= 250)%nat /\
  (String.length (generate_password_hash (RegisterForm.password Tour.bob_form)
                                         (salt Scenario.post_req)) <= 250)%nat /\
  current_user
    (at_browser (snd (browse (run boot Scenario.trace) 2
                             (route_register Tour.bob_form) Scenario.post_req)) 2)
  = Some Tour.bob.
Proof.
  destruct bob_fits as (Hn & He & Hh).
  split; [reflexivity|]. split; [reflexivity|]. split; [exact bob_is_new|].
  split; [exact Hn|]. split; [exact He|]. split; [exact Hh|].
  pose proof (@registration_logs_in double Scenario.trace 2%nat Tour.bob_form
                Scenario.post_req eq_refl eq_refl bob_is_new Hn He Hh) as H.
  destruct (browse (run boot Scenario.trace) 2
                   (route_register Tour.bob_form) Scenario.post_req)
    as [resp w'].
  destruct H as (_ & _ & _ & _ & H). exact H.
Defined.

Lemma register_then_login_witness :
  let credentials := LoginForm.mk "b@x.com" "hunter2" in
  let registered :=
    snd (browse Tour.visited 2 (route_register Tour.bob_form) Scenario.post_req) in
  method Scenario.post_req = POST /\
  RegisterForm_validate Tour.bob_form = true /\
  ~ In (RegisterForm.email Tour.bob_form) (map User.email (users (store Tour.visited))) /\
  (String.length (RegisterForm.name Tour.bob_form) <= 250)%nat /\
  (String.length (RegisterForm.email Tour.bob_form) <= 250)%nat /\
  (String.length (generate_password_hash (RegisterForm.password Tour.bob_form)
                                         (salt Scenario.post_req)) <= 250)%nat /\
  check_password_hash
    (generate_password_hash (RegisterForm.password Tour.bob_form) (salt Scenario.post_req))
    (RegisterForm.password Tour.bob_form) = true /\
  LoginForm_validate credentials = true /\
  let (resp, w') := browse (run registered Tour.later) 3
                           (route_login credentials) Scenario.post_req in
  resp = redirect (url_for "get_all_posts" []) /\
  session_user_id (cookies w' 3) = Some (users_seq (store Tour.visited)).
Proof.
  intros credentials registered.
  destruct bob_fits as (Hn & He & Hh).
  split; [reflexivity|]. split; [reflexivity|]. split; [exact bob_is_new|].
  split; [exact Hn|]. split; [exact He|]. split; [exact Hh|].
  split; [reflexivity|]. split; [reflexivity|].
  exact (@register_then_login double Tour.visited 2%nat 3%nat Tour.bob_form
           Scenario.post_req Scenario.post_req Tour.later
           eq_refl eq_refl bob_is_new Hn He Hh eq_refl eq_refl eq_refl).
Defined.

Lemma identity_kept_witness :
  sets_identity (route_show_post 1 Scenario.nice) = false /\
  session_user_id
    (session (snd (dispatch (route_show_post 1 Scenario.nice)
                            Scenario.post_req Scenario.as_alice)))
  = session_user_id (session Scenario.as_alice).
Proof.
  split; [reflexivity|].
  exact (@identity_kept double (route_show_post 1 Scenario.nice)
           Scenario.post_req Scenario.as_alice eq_refl).
Defined.

(** ** The order of the decorators and the pre-filled edit form *)

Section Decorators.
Context `{E : Externals}.

(** X18.  [admin_only] does not handle the anonymous user itself: alone,
    or placed outside [login_required], it raises on [current_user.id]
    for a request without a session, whatever the wrapped function; the
    state is left as it was.  The 401 of the guarded routes comes from
    [login_required] being the outer decorator. *)
Theorem admin_only_needs_login_required
        {A : Type} (func : View A) (args : A) (req : Request) (st : St) :
  current_user st = None ->
  admin_only func args req st = (unhandled "AttributeError", st) /\
  admin_only (login_required func) args req st = (unhandled "AttributeError", st) /\
  login_required (admin_only func) args req st = (abort 401, st).
Proof.
  intros Hanon. unfold admin_only, login_required.
  cbv beta delta [bind ret gets unauthorized] iota.
  rewrite Hanon. cbn. repeat split; reflexivity.
Qed.

(** X19.  The edit page of user 1 for a stored post shows the form filled
    with the title, subtitle, image URL and body of the post and changes
    nothing; submitting that form back unchanged, when it validates and
    the post is already by the logged-in user, leaves the post exactly as
    it was. *)
Theorem edit_prefilled_round_trip
        (post_id : Z) (blank : CreatePostForm.t) (req_get req_post : Request)
        (st : St) (admin : User.t) (post : BlogPost.t) :
  let prefilled :=
    CreatePostForm.mk (BlogPost.title post) (BlogPost.subtitle post)
                      (BlogPost.img_url post) (BlogPost.body post) in
  current_user st = Some admin ->
  User.id admin = 1 ->
  BlogPost_query_get post_id (db st) = Some post ->
  BlogPost.author_id post = Some (User.id admin) ->
  method req_get = GET ->
  method req_post = POST ->
  CreatePostForm_validate prefilled = true ->
  edit_post (post_id, blank) req_get st =
    (render_template "make-post.html" [("form", VCreatePostForm prefilled)], st) /\
  BlogPost_query_get post_id (db (snd (edit_post (post_id, prefilled) req_post st)))
  = Some post.
Proof.
  intros prefilled Hcu Hadmin Hget Hauthor Hg Hp Hv.
  pose proof (query_get_id _ _ _ Hget) as Hid.
  split.
  - unfold edit_post. guarded_view edit_post_func (post_id, blank) req_get st;
      try congruence.
    unfold edit_post_func, form_data, validate_on_submit. view.
    rewrite Hget, Hg. reflexivity.
  - unfold edit_post. guarded_view edit_post_func (post_id, prefilled) req_post st;
      try congruence.
    unfold edit_post_func, form_data, validate_on_submit.
    cbv beta delta [bind ret gets] iota.
    rewrite Hget, Hp. simpl. fold prefilled. rewrite Hv, Hcu0.
    assert (Hsame : u = admin) by congruence. subst u.
    assert (Hrow : assign_post (CreatePostForm.title prefilled)
                               (CreatePostForm.subtitle prefilled)
                               (CreatePostForm.img_url prefilled) admin
                               (CreatePostForm.body prefilled) post = post).
    { destruct post as [pid ttl sub dt bd img author]. unfold assign_post.
      simpl in *. rewrite Hauthor. reflexivity. }
    unfold prefilled in Hrow. simpl in Hrow.
    unfold update_BlogPost. rewrite Hrow, BlogPost_eqb_refl. simpl.
    exact Hget.
Qed.

End Decorators.

Lemma admin_only_needs_login_required_witness :
  current_user Scenario.as_visitor = None /\
  admin_only delete_post_func 1 Scenario.get_req Scenario.as_visitor
  = (unhandled "AttributeError", Scenario.as_visitor).
Proof.
  split; [reflexivity|].
  exact (proj1 (admin_only_needs_login_required delete_post_func 1 Scenario.get_req
                  Scenario.as_visitor eq_refl)).
Defined.

Lemma edit_prefilled_round_trip_witness :
  current_user Scenario.as_admin = Some Scenario.root /\
  User.id Scenario.root = 1 /\
  BlogPost_query_get 1 (db Scenario.as_admin) = Some Scenario.first_post /\
  BlogPost.author_id Scenario.first_post = Some (User.id Scenario.root) /\
  method Scenario.get_req = GET /\
  method Scenario.post_req = POST /\
  CreatePostForm_validate Scenario.hello = true /\
  BlogPost_query_get 1
    (db (snd (edit_post (1, Scenario.hello) Scenario.post_req Scenario.as_admin)))
  = Some Scenario.first_post.
Proof.
  do 7 (split; [reflexivity|]).
  exact (proj2 (@edit_prefilled_round_trip double 1 CreatePostForm.blank
                  Scenario.get_req Scenario.post_req Scenario.as_admin
                  Scenario.root Scenario.first_post
                  eq_refl eq_refl eq_refl eq_refl eq_refl eq_refl eq_refl)).
Defined.
